(** * parse_xcp_stats: a shallow embedding and its verified properties

    The development follows [parse_xcp_stats.py].  The script is a
    Python 2 program (it writes [str] lines to a file opened in binary
    mode and sorts rows whose key may be [None]), so strings are byte
    strings and the builtins below follow CPython 2.7:

    - [Py]      the string, list, [int()] and [float()] builtins the
                script calls, with exceptions as an error monad;
    - the script's own definitions under their source names
      ([convert], [getfields], [Histo], [ScanStats], [fromFile],
      [fromWindows], [fromCSV]) and the body of [__main__] split into
      [parse_all], [mkheaders], [mkrow], [aggregate] and [main];
    - the theorems, one section per property. *)

From Stdlib Require Import ZArith List Bool Lia Ascii String.
From Stdlib Require Import SpecFloat DecimalString Sorted Permutation.
From Stdlib Require Import DecimalPos.
Import ListNotations.
Open Scope string_scope.
Open Scope Z_scope.

(* ================================================================= *)
(** ** Exceptions *)

Inductive exn : Type :=
| ValueError
| IndexError
| KeyError
| OverflowError
| StopIteration
| AssertionError
| IOError.

Inductive result (A : Type) : Type :=
| Ok (a : A)
| Raise (e : exn).
Arguments Ok {A} a.
Arguments Raise {A} e.

Definition bind {A B} (r : result A) (k : A -> result B) : result B :=
  match r with
  | Ok a => k a
  | Raise e => Raise e
  end.

Notation "x <- r ;; k" := (bind r (fun x => k))
  (at level 61, r at next level, right associativity).
Notation "' p <- r ;; k" := (bind r (fun x => let p := x in k))
  (at level 61, p pattern, r at next level, right associativity).

Definition of_option {A} (e : exn) (o : option A) : result A :=
  match o with
  | Some a => Ok a
  | None => Raise e
  end.

(* ================================================================= *)
(** ** Python builtins *)

Module Py.

(** [str.isspace] on a byte: space, and the controls 9 to 13. *)
Definition isspace (c : ascii) : bool :=
  let n := nat_of_ascii c in
  (Nat.eqb n 32 || (Nat.leb 9 n && Nat.leb n 13))%bool.

(** [c in chars], for the character-set argument of [lstrip]/[rstrip]. *)
Fixpoint in_chars (chars : string) (c : ascii) : bool :=
  match chars with
  | EmptyString => false
  | String d chars' => (Ascii.eqb c d || in_chars chars' c)%bool
  end.

Fixpoint lstrip_with (p : ascii -> bool) (s : string) : string :=
  match s with
  | EmptyString => EmptyString
  | String c s' => if p c then lstrip_with p s' else s
  end.

Fixpoint rstrip_with (p : ascii -> bool) (s : string) : string :=
  match s with
  | EmptyString => EmptyString
  | String c s' =>
      match rstrip_with p s' with
      | EmptyString => if p c then EmptyString else String c EmptyString
      | r => String c r
      end
  end.

(** [s.strip()], [s.lstrip(chars)], [s.rstrip(chars)]: the argument of
    the last two is a set of characters, not a prefix or a suffix. *)
Definition strip (s : string) : string :=
  lstrip_with isspace (rstrip_with isspace s).
Definition lstrip (s chars : string) : string := lstrip_with (in_chars chars) s.
Definition rstrip (s chars : string) : string := rstrip_with (in_chars chars) s.

(** [s.replace(old, new)] for a one-character [old]. *)
Fixpoint replace (s : string) (old : ascii) (new : string) : string :=
  match s with
  | EmptyString => EmptyString
  | String c s' =>
      if Ascii.eqb c old then new ++ replace s' old new
      else String c (replace s' old new)
  end.

Definition startswith (s pre : string) : bool := String.prefix pre s.

(** [s.endswith(suf)]: some tail of [s] is [suf]. *)
Fixpoint endswith (s suf : string) : bool :=
  if String.eqb s suf then true
  else match s with
       | EmptyString => false
       | String _ s' => endswith s' suf
       end.

(** [sub in s]. *)
Fixpoint contains (s sub : string) : bool :=
  if String.prefix sub s then true
  else match s with
       | EmptyString => false
       | String _ s' => contains s' sub
       end.

(** [s.find(sub)]; [s.index(sub)] raises [ValueError] where it is [None]. *)
Fixpoint find (s sub : string) : option nat :=
  if String.prefix sub s then Some O
  else match s with
       | EmptyString => None
       | String _ s' => option_map S (find s' sub)
       end.

Definition index (s sub : string) : result Z :=
  match find s sub with
  | Some n => Ok (Z.of_nat n)
  | None => Raise ValueError
  end.

Definition len (s : string) : Z := Z.of_nat (String.length s).

(** A slice bound: a negative bound counts from the end, and every bound
    is clamped to [0, len]. *)
Definition adjust (n x : Z) : Z :=
  if x <? 0 then Z.max 0 (x + n) else Z.min x n.

(** [s[i:j]] *)
Definition slice (s : string) (i j : Z) : string :=
  let start := adjust (len s) i in
  let stop := adjust (len s) j in
  String.substring (Z.to_nat start) (Z.to_nat (stop - start)) s.

(** [s.split()]: the maximal runs of non-whitespace characters. *)
Definition push_token (t : string) (l : list string) : list string :=
  match t with
  | EmptyString => l
  | _ => t :: l
  end.

Fixpoint split_ws_aux (s : string) : string * list string :=
  match s with
  | EmptyString => (EmptyString, [])
  | String c s' =>
      let '(t, l) := split_ws_aux s' in
      if isspace c then (EmptyString, push_token t l) else (String c t, l)
  end.

Definition split_ws (s : string) : list string :=
  let '(t, l) := split_ws_aux s in push_token t l.

(** [s.split(sep)] for a one-character [sep]: never empty. *)
Fixpoint split (s : string) (sep : ascii) : list string :=
  match s with
  | EmptyString => [EmptyString]
  | String c s' =>
      match split s' sep with
      | t :: l => if Ascii.eqb c sep then EmptyString :: t :: l
                  else String c t :: l
      | [] => []
      end
  end.

(** [s.partition(sep)] for a one-character [sep]. *)
Fixpoint partition (s : string) (sep : ascii) : string * string * string :=
  match s with
  | EmptyString => (EmptyString, EmptyString, EmptyString)
  | String c s' =>
      if Ascii.eqb c sep then (EmptyString, String c EmptyString, s')
      else let '(b, m, a) := partition s' sep in (String c b, m, a)
  end.

(** [l[i]] on a list, negative indices counting from the end. *)
Definition getitem {A} (l : list A) (i : Z) : result A :=
  let n := Z.of_nat (List.length l) in
  let k := if i <? 0 then i + n else i in
  if (k <? 0) || (n <=? k) then Raise IndexError
  else of_option IndexError (nth_error l (Z.to_nat k)).

(** [l.index(x)] on a list of strings. *)
Fixpoint list_index (l : list string) (x : string) : result Z :=
  match l with
  | [] => Raise ValueError
  | y :: l' => if String.eqb y x then Ok 0
               else i <- list_index l' x ;; Ok (i + 1)
  end.

(** [x in l] for a tuple or the keys of a dict of strings. *)
Definition mem (x : string) (l : list string) : bool :=
  existsb (String.eqb x) l.

(** *** Numbers *)

Definition digit (c : ascii) : option Z :=
  let n := nat_of_ascii c in
  if (Nat.leb 48 n && Nat.leb n 57)%bool then Some (Z.of_nat n - 48) else None.

(** The longest run of decimal digits at the head of [s]: the number read
    so far, how many digits were read, and the rest. *)
Fixpoint digits (acc : Z) (n : nat) (s : string) : Z * nat * string :=
  match s with
  | EmptyString => (acc, n, s)
  | String c s' =>
      match digit c with
      | Some d => digits (10 * acc + d) (S n) s'
      | None => (acc, n, s)
      end
  end.

(** An optional sign: [true] is minus. *)
Definition sign (s : string) : bool * string :=
  match s with
  | String "-" s' => (true, s')
  | String "+" s' => (false, s')
  | _ => (false, s)
  end.

(** [int(s)] in base 10: blanks, a sign, blanks, digits, blanks. *)
Definition int (s : string) : result Z :=
  let '(neg, s1) := sign (lstrip_with isspace s) in
  let '(v, n, rest) := digits 0 O (lstrip_with isspace s1) in
  match n, lstrip_with isspace rest with
  | S _, EmptyString => Ok (if neg then - v else v)
  | _, _ => Raise ValueError
  end.

(** Binary64 *)
Definition prec : Z := 53.
Definition emax : Z := 1024.
Definition float : Type := spec_float.

(** The double nearest to [m * 10^e] (ties to even), for [m >= 0]. *)
Definition of_decimal (neg : bool) (m e : Z) : float :=
  match m with
  | Zpos p =>
      if 0 <=? e then binary_normalize prec emax (if neg then - (m * 10 ^ e) else m * 10 ^ e) 0 neg
      else
        let '(q, e', l) := SFdiv_core_binary prec emax m 0 (10 ^ (- e)) 0 in
        binary_round_aux prec emax neg q e' l
  | _ => S754_zero neg
  end.

Definition lower (c : ascii) : ascii :=
  let n := nat_of_ascii c in
  if (Nat.leb 65 n && Nat.leb n 90)%bool then ascii_of_nat (n + 32) else c.

Fixpoint lowercase (s : string) : string :=
  match s with
  | EmptyString => EmptyString
  | String c s' => String (lower c) (lowercase s')
  end.

(** The exponent part: nothing, or [e]/[E], a sign and at least one digit. *)
Definition exponent (s : string) : option (Z * string) :=
  match s with
  | String c s1 =>
      if Ascii.eqb (lower c) "e" then
        let '(neg, s2) := sign s1 in
        match digits 0 O s2 with
        | (v, S _, rest) => Some (if neg then - v else v, rest)
        | _ => None
        end
      else Some (0, s)
  | EmptyString => Some (0, s)
  end.

(** The fraction part: nothing, or a point and digits that extend the
    number read so far. *)
Definition fraction (ip : Z) (s : string) : Z * nat * string :=
  match s with
  | String c r => if Ascii.eqb c "." then digits ip O r else (ip, O, s)
  | EmptyString => (ip, O, s)
  end.

(** [float(s)]: blanks, a sign, then [inf], [infinity], [nan] in any case
    or a decimal numeral with at least one digit in its mantissa, blanks. *)
Definition float_of_string (s : string) : result float :=
  let '(neg, s1) := sign (lstrip_with isspace s) in
  let body := rstrip_with isspace s1 in
  let low := lowercase body in
  if String.eqb low "inf" || String.eqb low "infinity" then Ok (S754_infinity neg)
  else if String.eqb low "nan" then Ok S754_nan
  else
    let '(ip, ni, r1) := digits 0 O s1 in
    let '(m, nf, r2) := fraction ip r1 in
    match (ni + nf)%nat, exponent r2 with
    | S _, Some (e, r3) =>
        match lstrip_with isspace r3 with
        | EmptyString => Ok (of_decimal neg m (e - Z.of_nat nf))
        | _ => Raise ValueError
        end
    | _, _ => Raise ValueError
    end.

(** [float(n)] for an integer. *)
Definition float_of_int (n : Z) : float := binary_normalize prec emax n 0 false.

Definition fmul (x y : float) : float := SFmul prec emax x y.

(** [int(x)] for a float: truncation towards zero. *)
Definition int_of_float (x : float) : result Z :=
  match x with
  | S754_zero _ => Ok 0
  | S754_infinity _ => Raise OverflowError
  | S754_nan => Raise ValueError
  | S754_finite s m e =>
      let a := if 0 <=? e then Z.shiftl (Zpos m) e else Z.shiftr (Zpos m) (- e) in
      Ok (if s then - a else a)
  end.

(** [str(n)] for an integer. *)
Definition str_of_int (n : Z) : string := NilZero.string_of_int (Z.to_int n).

(** [next(x for x in l if p(x))] *)
Definition next {A} (p : A -> bool) (l : list A) : result A :=
  of_option StopIteration (List.find p l).

(** [f.readlines()] on the content of a file: lines keep their newline. *)
Definition newline : ascii := "010"%char.

Fixpoint readlines (s : string) : list string :=
  match s with
  | EmptyString => []
  | String c s' =>
      if Ascii.eqb c newline then String c EmptyString :: readlines s'
      else match readlines s' with
           | [] => [String c EmptyString]
           | l :: ls => String c l :: ls
           end
  end.

(** *** Dictionaries with string keys

    The items in insertion order; [d[k] = v] overwrites in place or
    appends.  The script reads its dictionaries by key only. *)
Definition dict (V : Type) : Type := list (string * V).

Fixpoint get {V} (d : dict V) (k : string) : option V :=
  match d with
  | [] => None
  | (k', v) :: d' => if String.eqb k k' then Some v else get d' k
  end.

Fixpoint set {V} (d : dict V) (k : string) (v : V) : dict V :=
  match d with
  | [] => [(k, v)]
  | (k', v') :: d' =>
      if String.eqb k k' then (k, v) :: d' else (k', v') :: set d' k v
  end.

Definition keys {V} (d : dict V) : list string := map fst d.

(** [mapM]: a loop that appends one result per element and stops at the
    first exception. *)
Fixpoint for_each {A B} (f : A -> result B) (l : list A) : result (list B) :=
  match l with
  | [] => Ok []
  | a :: l' => b <- f a ;; bs <- for_each f l' ;; Ok (b :: bs)
  end.

End Py.

(* ================================================================= *)
(** ** The script *)

Definition MaxField : Z := 9.

Definition Histograms : list string :=
  [ "Maximum Values"; "Average Values"; "Space used"; "Top File Extensions";
    "Number of files"; "Directory entries"; "Depth"; "Modified";
    "Created"; "Changed" ].

Definition SingleValues : list string :=
  [ "Total space used"; "Total count"; "Total space for regular files";
    "Regular files"; "Directories"; "Total space for directories";
    "Symbolic links"; "Junctions"; "Special files" ].

(** An [OrderedDict]: its items in insertion order. *)
Definition SingleValueOutputs : list (string * string) :=
  [ ("Total space used", "Total space");
    ("Regular files", "File count");
    ("Directories", "Dir count");
    ("Symbolic links", "Symlinks");
    ("Junctions", "Junctions");
    ("Hard links", "Hard links");
    ("Special files", "Specials") ].

Definition sizes : list (string * Z) :=
  [ ("KiB", Z.shiftl 1 10); ("MiB", Z.shiftl 1 20);
    ("GiB", Z.shiftl 1 30); ("TiB", Z.shiftl 1 40) ].

Definition counts : list (string * Z) :=
  [ ("K", 10 ^ 3); ("M", 10 ^ 6); ("B", 10 ^ 9); ("T", 10 ^ 12) ].

(** [int(float(v.rstrip(s)) * n)] *)
Definition scaled (v s : string) (n : Z) : result Z :=
  x <- Py.float_of_string (Py.rstrip v s) ;;
  Py.int_of_float (Py.fmul x (Py.float_of_int n)).

(** The loop [for s, n in table.items(): if v.endswith(s): return ...]:
    [None] when the loop ends without returning. *)
Fixpoint scan_suffixes (table : list (string * Z)) (v : string) : option (result Z) :=
  match table with
  | [] => None
  | (s, n) :: table' =>
      if Py.endswith v s then Some (scaled v s n) else scan_suffixes table' v
  end.

Definition convert (val : string) : result (string * Z) :=
  let orig := Py.strip val in
  let v := Py.strip (Py.replace val "," "") in
  if String.eqb (Py.strip v) EmptyString then Ok (orig, 0)
  else
    match scan_suffixes sizes v with
    | Some r => n <- r ;; Ok (orig, n)
    | None =>
        match scan_suffixes counts v with
        | Some r => n <- r ;; Ok (orig, n)
        | None => n <- Py.int v ;; Ok (orig, n)
        end
    end.


(** The labels of the age histogram, which contain blanks. *)
Definition age_names : list string :=
  [ ">1 year"; ">1 month"; "1-31 days"; "1-24 hrs"; "<1 hour"; "<15 mins";
    "future"; "invalid" ].

Definition getfields (line1 line2 : string) : result (list string * list Z) :=
  let names :=
    if Py.contains line1 ">1 year" then age_names else Py.split_ws line1 in
  values <- Py.for_each
    (fun name =>
       k <- Py.index line1 name ;;
       let i := k + Py.len name - MaxField in
       '(_, n) <- convert (Py.slice line2 i (i + MaxField)) ;;
       Ok n)
    names ;;
  Ok (names, values).

(** A cell of a histogram or of the report: [None], a number or a string. *)
Inductive value : Type :=
| VNone
| VInt (n : Z)
| VStr (s : string).

Record Histo : Type := mkHisto {
  title : string;
  labels : list string;
  values : list value
}.

Record ScanStats : Type := mkScanStats {
  fileName : string;
  hists : Py.dict Histo;
  single : Py.dict Z;
  source : option string;
  nError : Z;
  skip1 : option string  (* set by [fromCSV] only *)
}.

Definition set_hists (self : ScanStats) (t : string) (h : Histo) : ScanStats :=
  mkScanStats (fileName self) (Py.set (hists self) t h) (single self)
              (source self) (nError self) (skip1 self).
Definition set_single (self : ScanStats) (t : string) (n : Z) : ScanStats :=
  mkScanStats (fileName self) (hists self) (Py.set (single self) t n)
              (source self) (nError self) (skip1 self).
Definition set_source (self : ScanStats) (s : string) : ScanStats :=
  mkScanStats (fileName self) (hists self) (single self)
              (Some s) (nError self) (skip1 self).
Definition set_nError (self : ScanStats) (n : Z) : ScanStats :=
  mkScanStats (fileName self) (hists self) (single self)
              (source self) n (skip1 self).
Definition set_skip1 (self : ScanStats) (s : option string) : ScanStats :=
  mkScanStats (fileName self) (hists self) (single self)
              (source self) (nError self) s.

(** [ScanStats.__init__] *)
Definition init (fileName : string) : ScanStats :=
  mkScanStats fileName [] [] None 0 None.

Definition backslash : string := String "092"%char EmptyString.
Definition dquote : string := String "034"%char EmptyString.

(** *** The Windows report *)

(** The rule [if " errors, " in line: ...], which falls through. *)
Definition errors_rule (line : string) (self : ScanStats) : result ScanStats :=
  if Py.contains line " errors, " then
    errfield <- Py.next (fun f => Py.contains f "errors") (Py.split line ",") ;;
    match Py.split_ws errfield with
    | [nErr; _] => n <- Py.int nErr ;; Ok (set_nError self (Z.max (nError self) n))
    | _ => Raise ValueError
    end
  else Ok self.

Definition section_title (line : string) : string :=
  Py.rstrip (Py.lstrip (Py.strip line) "== ") " ==".

(** One turn of the loop of [fromWindows]. *)
Definition fromWindows_body (lines : list string) (lineNum : nat) (line : string)
    (self : ScanStats) : result ScanStats :=
  if Py.startswith line "xcp scan" then
    src <- Py.next (fun f => Py.startswith f backslash) (Py.split_ws line) ;;
    Ok (set_source self src)
  else
    self <- errors_rule line self ;;
    let title := section_title line in
    if Py.mem title Histograms then
      line1 <- Py.getitem lines (Z.of_nat lineNum + 1) ;;
      line2 <- Py.getitem lines (Z.of_nat lineNum + 2) ;;
      '(labels, values) <- getfields line1 line2 ;;
      Ok (set_hists self title (mkHisto title labels (map VInt values)))
    else
      let '(title, _, s) := Py.partition line ":" in
      if Py.mem title (Py.keys SingleValueOutputs) then
        '(_, n) <- convert s ;;
        Ok (set_single self title n)
      else Ok self.

(** [for lineNum, line in enumerate(lines)]: [todo] is what is left of
    [lines] from index [lineNum] on. *)
Fixpoint fromWindows_loop (lines : list string) (lineNum : nat)
    (todo : list string) (self : ScanStats) : result ScanStats :=
  match todo with
  | [] => Ok self
  | line :: todo' =>
      self <- fromWindows_body lines lineNum line self ;;
      fromWindows_loop lines (S lineNum) todo' self
  end.

(** [f] stands for the file object: the list its [readlines()] returns. *)
Definition fromWindows (fileName : string) (f : list string) : result ScanStats :=
  fromWindows_loop f O f (init fileName).

(** *** The CSV report *)

Definition truthy (o : option string) : bool :=
  match o with
  | Some (String _ _) => true
  | _ => false
  end.

(** The rules on the comma-separated fields of a line. *)
Definition fromCSV_fields (lines : list string) (lineNum : nat) (line : string)
    (self : ScanStats) : result ScanStats :=
  let fields := Py.split line "," in
  match fields with
  | [] => Ok self
  | title :: _ =>
      if Py.mem title Histograms then
        let labels := tl fields in
        next_line <- Py.getitem lines (Z.of_nat lineNum + 1) ;;
        let values := tl (Py.split next_line ",") in
        Ok (set_skip1
              (set_hists self title (mkHisto title labels (map VStr values)))
              (Some title))
      else if negb (Py.mem title (Py.keys SingleValueOutputs)) then Ok self
      else
        f1 <- Py.getitem fields 1 ;;
        n <- Py.int f1 ;;
        Ok (set_single self title n)
  end.

(** One turn of the loop of [fromCSV]. *)
Definition fromCSV_body (lines : list string) (lineNum : nat) (line : string)
    (self : ScanStats) : result ScanStats :=
  match skip1 self with
  | Some (String _ _ as t) =>
      if Py.startswith line t then Ok (set_skip1 self None)
      else Raise AssertionError
  | _ =>
      let self := set_skip1 self None in
      if Py.startswith line "scan " then
        src <- Py.getitem (Py.split_ws line) 1 ;;
        Ok (set_source self src)
      else if (Py.startswith line ("summary," ++ dquote)
               && Py.contains line "errors,")%bool then
        let fields :=
          Py.split_ws (Py.slice line (Py.len ("summary," ++ dquote)) (-1)) in
        k <- Py.list_index fields "errors," ;;
        w <- Py.getitem fields (k - 1) ;;
        n <- Py.int w ;;
        Ok (set_nError self n)
      else fromCSV_fields lines lineNum line self
  end.

Fixpoint fromCSV_loop (lines : list string) (lineNum : nat)
    (todo : list string) (self : ScanStats) : result ScanStats :=
  match todo with
  | [] => Ok self
  | line :: todo' =>
      self <- fromCSV_body lines lineNum line self ;;
      fromCSV_loop lines (S lineNum) todo' self
  end.

Definition fromCSV (fileName : string) (f : list string) : result ScanStats :=
  fromCSV_loop f O f (init fileName).

Definition fromFile (fileName : string) (f : list string) : result ScanStats :=
  if Py.endswith fileName "csv" then fromCSV fileName f
  else fromWindows fileName f.

(* ================================================================= *)
(** ** [__main__] *)

(** The module-level [lineNum]: the loops of the parsers bind a local name,
    so it keeps its initial [None]. *)
Definition lineNum : option Z := None.

(** What the handler of the parsing loop prints before it re-raises. *)
Definition handler_output (fileName : string) : list string :=
  match lineNum with
  | Some n =>
      if n =? 0 then []
      else ["** " ++ fileName ++ ": error on or near line " ++ Py.str_of_int (n + 1)]
  | None => []
  end.

(** [fs] is the file system: the content of each file that can be opened. *)
Definition open (fs : string -> option string) (fileName : string)
  : result (list string) :=
  match fs fileName with
  | Some content => Ok (Py.readlines content)
  | None => Raise IOError
  end.

(** The first loop: console output, and the records or the exception. *)
Fixpoint parse_all (fs : string -> option string) (fileNames : list string)
    (file2stats : Py.dict ScanStats) : list string * result (Py.dict ScanStats) :=
  match fileNames with
  | [] => ([], Ok file2stats)
  | fileName :: fileNames' =>
      match (f <- open fs fileName ;; fromFile fileName f) with
      | Ok stats => parse_all fs fileNames' (Py.set file2stats fileName stats)
      | Raise e => (handler_output fileName, Raise e)
      end
  end.

Definition lookup (file2stats : Py.dict ScanStats) (fileName : string)
  : result ScanStats :=
  of_option KeyError (Py.get file2stats fileName).

(** The loop over [Histograms] that extends the two header rows. *)
Fixpoint header_loop (titles fileNames : list string)
    (file2stats : Py.dict ScanStats) (header0 header : list string)
  : result (list string * list string) :=
  match titles with
  | [] => Ok (header0, header)
  | title :: titles' =>
      if String.eqb title "Top File Extensions" then
        header_loop titles' fileNames file2stats header0 header
      else
        name0 <- Py.getitem fileNames 0 ;;
        stats0 <- lookup file2stats name0 ;;
        match Py.get (hists stats0) title with
        | None => header_loop titles' fileNames file2stats header0 header
        | Some h =>
            let labels := labels h in
            header_loop titles' fileNames file2stats
              (header0 ++ [title]
                 ++ repeat EmptyString (Z.to_nat (Z.of_nat (List.length labels) - 1)))%list
              (header ++ labels)%list
        end
  end.

Definition mkheaders (fileNames : list string) (file2stats : Py.dict ScanStats)
  : result (list string * list string) :=
  header_loop Histograms fileNames file2stats
    ([EmptyString; EmptyString; EmptyString]
       ++ map (fun _ => EmptyString) (Py.keys SingleValueOutputs))%list
    ([EmptyString; "Errors"; EmptyString] ++ Py.keys SingleValueOutputs)%list.

Definition opt_value {A} (f : A -> value) (o : option A) : value :=
  match o with
  | Some a => f a
  | None => VNone
  end.

(** The loop over [Histograms] that extends a data row. *)
Fixpoint row_loop (titles : list string) (stats : ScanStats) (row : list value)
  : list value :=
  match titles with
  | [] => row
  | title :: titles' =>
      if String.eqb title "Top File Extensions" then row_loop titles' stats row
      else match Py.get (hists stats) title with
           | Some h => row_loop titles' stats (row ++ values h)%list
           | None => row_loop titles' stats row
           end
  end.

Definition mkrow (file2stats : Py.dict ScanStats) (fileName : string)
  : result (list value) :=
  stats <- lookup file2stats fileName ;;
  let errCount := if nError stats =? 0 then VStr EmptyString else VInt (nError stats) in
  let row := [VStr fileName; errCount; opt_value VStr (source stats)] in
  let row := (row ++ map (fun title => opt_value VInt (Py.get (single stats) title))
                         (Py.keys SingleValueOutputs))%list in
  Ok (row_loop Histograms stats row).

(** Python 2 orders [None] below every number and numbers below strings. *)
Definition value_compare (a b : value) : comparison :=
  match a, b with
  | VNone, VNone => Eq
  | VNone, _ => Lt
  | _, VNone => Gt
  | VInt x, VInt y => Z.compare x y
  | VInt _, VStr _ => Lt
  | VStr _, VInt _ => Gt
  | VStr x, VStr y => String.compare x y
  end.

Definition value_ltb (a b : value) : bool :=
  match value_compare a b with
  | Lt => true
  | _ => false
  end.

(** [rows.sort(key=..., reverse=True)].  The sort is stable and its result
    is fixed by the keys and the order of the input: rows come out with
    keys descending, rows of equal key in their input order.  Insertion
    from the right computes that list. *)
Fixpoint insert_desc {A} (x : value * A) (l : list (value * A)) : list (value * A) :=
  match l with
  | [] => [x]
  | y :: l' =>
      if value_ltb (fst x) (fst y) then y :: insert_desc x l'
      else x :: y :: l'
  end.

Definition sort_desc {A} (l : list (value * A)) : list (value * A) :=
  fold_right insert_desc [] l.

Definition sort_rows (rows : list (list value)) : result (list (list value)) :=
  keyed <- Py.for_each (fun row => k <- Py.getitem row 3 ;; Ok (k, row)) rows ;;
  Ok (map snd (sort_desc keyed)).

Record Table : Type := mkTable {
  header0 : list string;
  header : list string;
  rows : list (list value)
}.

(** The report before and after [rows.sort]. *)
Definition build (fileNames : list string) (file2stats : Py.dict ScanStats)
  : result Table :=
  '(header0, header) <- mkheaders fileNames file2stats ;;
  rows <- Py.for_each (mkrow file2stats) fileNames ;;
  Ok (mkTable header0 header rows).

Definition aggregate (fileNames : list string) (file2stats : Py.dict ScanStats)
  : result Table :=
  t <- build fileNames file2stats ;;
  rows <- sort_rows (rows t) ;;
  Ok (mkTable (header0 t) (header t) rows).

Definition fmt (item : value) : string :=
  match item with
  | VInt n => Py.str_of_int n
  | VStr s => dquote ++ s ++ dquote
  | VNone => dquote ++ "None" ++ dquote
  end.

Definition mkline (row : list value) : string :=
  String.concat "," (map fmt row) ++ String Py.newline EmptyString.

(** The lines written to the output file. *)
Definition serialize (t : Table) : list string :=
  mkline (map VStr (header0 t)) :: mkline (map VStr (header t))
    :: map mkline (rows t).

Definition outFileName : string := "stats.csv".

Definition summary (fileNames : list string) (file2stats : Py.dict ScanStats)
  : result string :=
  recs <- Py.for_each (lookup file2stats) fileNames ;;
  let nbad := List.length (filter (fun r => negb (nError r =? 0)) recs) in
  Ok ("Processed " ++ Py.str_of_int (Z.of_nat (List.length fileNames))
        ++ " files; " ++ Py.str_of_int (Z.of_nat nbad)
        ++ " had errors; saving csv in " ++ outFileName).

(** The whole script: what it prints, and the lines of [stats.csv] or the
    exception that ends the run. *)
Definition main (fs : string -> option string) (fileNames : list string)
  : list string * result (list string) :=
  match parse_all fs fileNames [] with
  | (out, Raise e) => (out, Raise e)
  | (out, Ok file2stats) =>
      match build fileNames file2stats with
      | Raise e => (out, Raise e)
      | Ok t =>
          match summary fileNames file2stats with
          | Raise e => (out, Raise e)
          | Ok msg =>
              ((out ++ [msg])%list,
               rows <- sort_rows (rows t) ;;
               Ok (serialize (mkTable (header0 t) (header t) rows)))
          end
      end
  end.

(* ================================================================= *)
(** ** Vocabulary of the statements *)

Definition nl : string := String Py.newline EmptyString.

Fixpoint last_char (s : string) : option ascii :=
  match s with
  | EmptyString => None
  | String c EmptyString => Some c
  | String _ s' => last_char s'
  end.

Fixpoint string_forall (p : ascii -> bool) (s : string) : bool :=
  match s with
  | EmptyString => true
  | String c s' => (p c && string_forall p s')%bool
  end.

(** The characters of the two suffix tables. *)
Definition suffix_char (c : ascii) : bool := Py.in_chars "KiBMGT" c.

(** The characters of a decimal numeral with its blanks. *)
Definition numeral_char (c : ascii) : bool :=
  (Py.isspace c || match Py.digit c with Some _ => true | None => false end
   || Py.in_chars ".eE+-" c)%bool.

Definition no_suffix (table : list (string * Z)) (v : string) : Prop :=
  forall s n, In (s, n) table -> Py.endswith v s = false.

(** The rows of the extractor example. *)
Definition zip_labels : string := "  .zip       .pdf      other".
Definition zip_values : string := " 19507      16328      22047".




(** A histogram whose value row starts with its title and more. *)
Definition depthx_lines : list string :=
  ["Depth,a,b" ++ nl; "Depthx,1,2" ++ nl].

(** A histogram followed by a line of another kind. *)
Definition depth_then_scalar : list string :=
  ["Depth,a,b" ++ nl; "Depth,1,2" ++ nl; "Directories,5" ++ nl].

(** A line of the Windows report that takes the histogram branch. *)
Definition is_histogram_line (line : string) : bool :=
  (negb (Py.startswith line "xcp scan")
   && Py.mem (section_title line) Histograms)%bool.

(** A line of the Windows report on which no rule fires. *)
Definition matches_no_rule (line : string) : bool :=
  (negb (Py.startswith line "xcp scan")
   && negb (Py.contains line " errors, ")
   && negb (Py.mem (section_title line) Histograms)
   && negb (Py.mem (fst (fst (Py.partition line ":"))) (Py.keys SingleValueOutputs)))%bool.

(** Follows the specification's words, for comparison with
    [fromWindows_loop]: after a title line, the two lines handed to the
    extractor are passed over and scanning resumes after them.  [skip]
    counts the lines still to pass over. *)
Fixpoint spec_resume_loop (lines : list string) (lineNum : nat)
    (todo : list string) (skip : nat) (self : ScanStats) : result ScanStats :=
  match todo with
  | [] => Ok self
  | line :: todo' =>
      match skip with
      | S k => spec_resume_loop lines (S lineNum) todo' k self
      | O =>
          self <- fromWindows_body lines lineNum line self ;;
          spec_resume_loop lines (S lineNum) todo'
            (if is_histogram_line line then 2 else 0) self
      end
  end.

Definition spec_fromWindows (fileName : string) (f : list string) : result ScanStats :=
  spec_resume_loop f O f O (init fileName).

(** Every line that [spec_resume_loop] passes over matches no rule. *)
Fixpoint passed_over_inert (todo : list string) (skip : nat) : Prop :=
  match todo with
  | [] => True
  | line :: todo' =>
      match skip with
      | S k => matches_no_rule line = true /\ passed_over_inert todo' k
      | O => passed_over_inert todo' (if is_histogram_line line then 2 else 0)
      end
  end.

(** A label row that is itself the title of a histogram. *)
Definition nested_title_lines : list string :=
  ["== Depth ==" ++ nl; " Modified" ++ nl; "   5" ++ nl; "   7" ++ nl].

(** An ordinary block of the Windows report. *)
Definition space_used_lines : list string :=
  ["== Space used ==" ++ nl;
   "     empty      <8KiB    8-64KiB" ++ nl;
   "         0    24.2MiB     680MiB" ++ nl;
   "Total space used: 704MiB" ++ nl].

(** The parse of one file of the batch, as in the body of the [try]. *)
Definition parse_one (fs : string -> option string) (fileName : string)
  : result ScanStats :=
  f <- open fs fileName ;; fromFile fileName f.

(** The histograms that get columns: all but the per-file one. *)
Definition shown (title : string) : bool :=
  negb (String.eqb title "Top File Extensions").

(** The cells that the histograms of [stats] under [titles] take, at
    [f h] cells for a histogram [h]. *)
Definition hcells (f : Histo -> nat) (stats : ScanStats) (titles : list string) : nat :=
  list_sum
    (map (fun title =>
            match Py.get (hists stats) title with
            | Some h => f h
            | None => O
            end)
         (filter shown titles)).

Definition cells (f : Histo -> nat) (stats : ScanStats) : nat :=
  hcells f stats Histograms.

(** [stats] holds the shown histograms of the reference record [stats0]
    and no other, each with one value per label of the reference. *)
Definition same_shape (stats0 stats : ScanStats) : Prop :=
  forall title, In title Histograms -> shown title = true ->
    match Py.get (hists stats0) title, Py.get (hists stats) title with
    | Some h0, Some h =>
        labels h0 <> [] /\ List.length (values h) = List.length (labels h0)
    | None, None => True
    | _, _ => False
    end.

(** The key of [r1], the cell of the fourth column, is a number not
    below that of [r2]. *)
Definition key_ge (r1 r2 : list value) : Prop :=
  exists a b, nth_error r1 3 = Some (VInt a) /\ nth_error r2 3 = Some (VInt b)
              /\ b <= a.

(** The keyed rows whose key is [k]. *)
Definition has_key {A} (k : value) (x : value * A) : bool :=
  match value_compare (fst x) k with
  | Eq => true
  | _ => false
  end.

(** On numeric keys the order is that of the integers. *)
Definition int_key_ge {A} (x y : value * A) : Prop :=
  exists a b, fst x = VInt a /\ fst y = VInt b /\ b <= a.

Definition int_key {A} (x : value * A) : Prop := exists a, fst x = VInt a.

(** Two records with the same content, whatever the insertion order of
    their dictionaries. *)
Definition same_record (a b : ScanStats) : Prop :=
  source a = source b /\ nError a = nError b /\
  (forall k, Py.get (hists a) k = Py.get (hists b) k) /\
  (forall k, Py.get (single a) k = Py.get (single b) k).

Definition same_records (fileNames : list string) (d1 d2 : Py.dict ScanStats) : Prop :=
  forall name, In name fileNames ->
    match Py.get d1 name, Py.get d2 name with
    | Some a, Some b => same_record a b
    | None, None => True
    | _, _ => False
    end.

(** File systems of the examples. *)
Definition fs_of (files : list (string * string)) (fileName : string) : option string :=
  Py.get files fileName.

Definition fs_three : string -> option string :=
  fs_of [("a.csv", "Total space used,100" ++ nl);
         ("b.csv", "Total space used,300" ++ nl);
         ("c.csv", "Total space used,200" ++ nl)].

Definition fs_mixed : string -> option string :=
  fs_of [("a.csv", "Total space used,100" ++ nl
                   ++ "Depth,a,b" ++ nl ++ "Depth,1,2" ++ nl);
         ("b.csv", "Total space used,300" ++ nl
                   ++ "Depth,a,b" ++ nl ++ "Depth,1,2" ++ nl
                   ++ "Created,x,y" ++ nl ++ "Created,5,6" ++ nl)].

Definition fs_bad : string -> option string :=
  fs_of [("bad.csv", "Total space used,abc" ++ nl);
         ("good.csv", "Total space used,100" ++ nl)].

(** Two records of the same shape, as [fromCSV] builds them. *)
Definition fs_alike : string -> option string :=
  fs_of [("a.csv", "Total space used,100" ++ nl ++ "Regular files,7" ++ nl
                   ++ "Depth,a,b" ++ nl ++ "Depth,1,2" ++ nl);
         ("b.csv", "Total space used,300" ++ nl ++ "Regular files,9" ++ nl
                   ++ "Depth,a,b" ++ nl ++ "Depth,3,4" ++ nl)].

Definition depth_record (name : string) (scalars : Py.dict Z) (v1 v2 : string)
  : ScanStats :=
  mkScanStats name
    [("Depth", mkHisto "Depth" ["a"; "b" ++ nl] [VStr v1; VStr (v2 ++ nl)])]
    scalars None 0 None.

Definition records_alike : Py.dict ScanStats :=
  [("a.csv", depth_record "a.csv"
               [("Total space used", 100); ("Regular files", 7)] "1" "2");
   ("b.csv", depth_record "b.csv"
               [("Total space used", 300); ("Regular files", 9)] "3" "4")].

(** The same content as [records_alike], with the files and the scalars
    entered in another order. *)
Definition records_reordered : Py.dict ScanStats :=
  [("b.csv", depth_record "b.csv"
               [("Regular files", 9); ("Total space used", 300)] "3" "4");
   ("a.csv", depth_record "a.csv"
               [("Regular files", 7); ("Total space used", 100)] "1" "2")].

(** The number that a run of decimal digits denotes when read after
    the number [acc]. *)
Fixpoint uint_value (acc : Z) (d : Decimal.uint) : Z :=
  match d with
  | Decimal.Nil => acc
  | Decimal.D0 d => uint_value (10 * acc) d
  | Decimal.D1 d => uint_value (10 * acc + 1) d
  | Decimal.D2 d => uint_value (10 * acc + 2) d
  | Decimal.D3 d => uint_value (10 * acc + 3) d
  | Decimal.D4 d => uint_value (10 * acc + 4) d
  | Decimal.D5 d => uint_value (10 * acc + 5) d
  | Decimal.D6 d => uint_value (10 * acc + 6) d
  | Decimal.D7 d => uint_value (10 * acc + 7) d
  | Decimal.D8 d => uint_value (10 * acc + 8) d
  | Decimal.D9 d => uint_value (10 * acc + 9) d
  end.

(** The number of a successful [convert], without the display string. *)
Definition number (r : result (string * Z)) : result Z :=
  '(_, n) <- r ;; Ok n.

Definition blank (s : string) : Prop := string_forall Py.isspace s = true.

(** The characters of the text of an integer. *)
Definition int_char (c : ascii) : bool :=
  (match Py.digit c with Some _ => true | None => false end
   || Ascii.eqb c "-")%bool.

(** What every record of a parser satisfies.  A histogram sits under
    its own title, a title of [Histograms]; a scalar sits under a key of
    [SingleValueOutputs]; no key occurs twice. *)
Definition is_int (v : value) : Prop := exists n, v = VInt n.
Definition is_str (v : value) : Prop := exists s, v = VStr s.

Definition histo_ok (value_ok : value -> Prop) (kv : string * Histo) : Prop :=
  In (fst kv) Histograms /\ title (snd kv) = fst kv /\
  Forall value_ok (values (snd kv)).

Definition scalars_ok (d : Py.dict Z) : Prop :=
  Forall (fun kv => In (fst kv) (Py.keys SingleValueOutputs)) d /\
  NoDup (Py.keys d).

Definition windows_record (name : string) (st : ScanStats) : Prop :=
  fileName st = name /\
  Forall (fun kv => histo_ok is_int kv /\
                    List.length (labels (snd kv)) = List.length (values (snd kv)))
         (hists st) /\
  NoDup (Py.keys (hists st)) /\
  scalars_ok (single st) /\
  0 <= nError st.

Definition csv_record (name : string) (st : ScanStats) : Prop :=
  fileName st = name /\
  Forall (histo_ok is_str) (hists st) /\
  NoDup (Py.keys (hists st)) /\
  scalars_ok (single st).

(** A line of the CSV report on which no rule fires. *)
Definition csv_ignored (line : string) : bool :=
  (negb (Py.startswith line "scan ")
   && negb (Py.startswith line ("summary," ++ dquote) && Py.contains line "errors,")
   && match Py.split line "," with
      | [] => true
      | title :: _ =>
          negb (Py.mem title Histograms)
          && negb (Py.mem title (Py.keys SingleValueOutputs))
      end)%bool.

(** The sort key of a row, and the rows of a given key. *)
Definition row_key (row : list value) : value := nth 3 row VNone.

Definition key_is (k : value) (row : list value) : bool :=
  match value_compare (row_key row) k with
  | Eq => true
  | _ => false
  end.

(** [r1] may stand before [r2]: its key is not below that of [r2] in the
    order of Python 2. *)
Definition key_not_below (r1 r2 : list value) : Prop :=
  value_ltb (row_key r1) (row_key r2) = false.

(** The keys that occur: a number, or [None] for a missing scalar. *)
Definition simple (v : value) : Prop := v = VNone \/ exists n, v = VInt n.

(** Two records that agree on all but the "Top File Extensions"
    histogram. *)
Definition same_shown (a b : ScanStats) : Prop :=
  source a = source b /\ nError a = nError b /\
  (forall k, shown k = true -> Py.get (hists a) k = Py.get (hists b) k) /\
  (forall k, Py.get (single a) k = Py.get (single b) k).

Definition same_shown_records (fileNames : list string) (d1 d2 : Py.dict ScanStats)
  : Prop :=
  forall name, In name fileNames ->
    match Py.get d1 name, Py.get d2 name with
    | Some a, Some b => same_shown a b
    | None, None => True
    | _, _ => False
    end.





(* ================================================================= *)
(** ** Strings *)

Lemma append_nil_r (s : string) : s ++ EmptyString = s.
Proof. induction s; simpl; congruence. Qed.

Lemma append_assoc (a b c : string) : (a ++ b) ++ c = a ++ (b ++ c).
Proof. induction a; simpl; congruence. Qed.

Lemma length_append (a b : string) :
  String.length (a ++ b) = (String.length a + String.length b)%nat.
Proof. induction a; simpl; congruence. Qed.

Lemma append_inj_length (a b a' b' : string) :
  a ++ b = a' ++ b' -> String.length b = String.length b' -> b = b'.
Proof.
  revert a'. induction a as [|c a IH]; intros [|c' a'] H L; simpl in *.
  - exact H.
  - apply (f_equal String.length) in H. simpl in H.
    rewrite length_append in H. lia.
  - apply (f_equal String.length) in H. simpl in H.
    rewrite length_append in H. lia.
  - injection H as _ H. eauto.
Qed.

Lemma endswith_unfold (s suf : string) :
  Py.endswith s suf =
  if String.eqb s suf then true
  else match s with
       | EmptyString => false
       | String _ s' => Py.endswith s' suf
       end.
Proof. destruct s; reflexivity. Qed.

Lemma endswith_app (p s : string) : Py.endswith (p ++ s) s = true.
Proof.
  induction p as [|c p IH].
  - rewrite endswith_unfold. simpl. rewrite String.eqb_refl. reflexivity.
  - change (String c p ++ s) with (String c (p ++ s)).
    rewrite endswith_unfold, IH. destruct (String.eqb _ _); reflexivity.
Qed.

Lemma endswith_inv (v s : string) :
  Py.endswith v s = true -> exists p, v = p ++ s.
Proof.
  induction v as [|c v IH]; rewrite endswith_unfold.
  - destruct (String.eqb_spec EmptyString s) as [<-|]; [|discriminate].
    intros _. exists EmptyString. reflexivity.
  - destruct (String.eqb_spec (String c v) s) as [<-|].
    + intros _. exists EmptyString. reflexivity.
    + intros H. destruct (IH H) as [p ->]. exists (String c p). reflexivity.
Qed.

Lemma endswith_other (p s s' : string) :
  String.length s = String.length s' -> s <> s' ->
  Py.endswith (p ++ s) s' = false.
Proof.
  intros L N. destruct (Py.endswith (p ++ s) s') eqn:E; [|reflexivity].
  apply endswith_inv in E. destruct E as [p' E].
  apply append_inj_length in E; [contradiction | exact L].
Qed.

Lemma last_char_app (a b : string) :
  b <> EmptyString -> last_char (a ++ b) = last_char b.
Proof.
  intros N. induction a as [|c a IH]; simpl; [reflexivity|].
  rewrite IH. destruct (a ++ b) eqn:E; [|reflexivity].
  destruct a; simpl in E; [contradiction | discriminate].
Qed.

Lemma last_char_forall (p : ascii -> bool) (s : string) (c : ascii) :
  string_forall p s = true -> last_char s = Some c -> p c = true.
Proof.
  induction s as [|d s IH]; simpl; [discriminate|].
  intros H L. apply andb_true_iff in H. destruct H as [Hd Hs].
  destruct s; [congruence | auto].
Qed.

Lemma lstrip_with_split (p : ascii -> bool) (s : string) :
  exists w, s = w ++ Py.lstrip_with p s.
Proof.
  induction s as [|c s [w IH]]; simpl.
  - exists EmptyString. reflexivity.
  - destruct (p c).
    + exists (String c w). simpl. congruence.
    + exists EmptyString. reflexivity.
Qed.

Lemma lstrip_with_nil (p : ascii -> bool) (s : string) :
  Py.lstrip_with p s = EmptyString -> string_forall p s = true.
Proof.
  induction s as [|c s IH]; simpl; [reflexivity|].
  destruct (p c); [auto | discriminate].
Qed.

(** [rstrip] leaves a string alone exactly when it is empty or its last
    character is not one to strip. *)
Lemma rstrip_with_fix (p : ascii -> bool) (s : string) :
  Py.rstrip_with p s = s <->
  (forall c, last_char s = Some c -> p c = false).
Proof.
  induction s as [|d s IH].
  - simpl. split; [discriminate | reflexivity].
  - destruct s as [|d' s'].
    + simpl. destruct (p d) eqn:E; split; intros H.
      * discriminate.
      * specialize (H d eq_refl). congruence.
      * intros c [= <-]. exact E.
      * reflexivity.
    + change (last_char (String d (String d' s')))
        with (last_char (String d' s')).
      remember (String d' s') as t eqn:Et.
      change (Py.rstrip_with p (String d t))
        with (match Py.rstrip_with p t with
              | EmptyString => if p d then EmptyString else String d EmptyString
              | r => String d r
              end).
      destruct (Py.rstrip_with p t) eqn:R.
      * split; intros H.
        -- destruct (p d); [discriminate | injection H as H; congruence].
        -- apply IH in H. congruence.
      * split; intros H.
        -- injection H as H. apply IH. exact H.
        -- f_equal. apply IH. exact H.
Qed.

Lemma rstrip_with_app (p : ascii -> bool) (a s : string) :
  string_forall p s = true -> Py.rstrip_with p a = a ->
  Py.rstrip_with p (a ++ s) = a.
Proof.
  intros Hs. induction a as [|c a IH]; intros H.
  - simpl. clear H. induction s as [|d s IHs]; simpl in *; [reflexivity|].
    apply andb_true_iff in Hs. destruct Hs as [Hd Hs].
    rewrite (IHs Hs), Hd. reflexivity.
  - pose proof (proj1 (rstrip_with_fix p (String c a)) H) as L.
    assert (Ha : Py.rstrip_with p a = a).
    { apply rstrip_with_fix. intros x Hx. apply L.
      destruct a; [discriminate | exact Hx]. }
    change (String c a ++ s) with (String c (a ++ s)).
    change (Py.rstrip_with p (String c (a ++ s)))
      with (match Py.rstrip_with p (a ++ s) with
            | EmptyString => if p c then EmptyString else String c EmptyString
            | r => String c r
            end).
    rewrite (IH Ha). destruct a; [|reflexivity].
    rewrite (L c eq_refl). reflexivity.
Qed.

Lemma last_char_lowercase (s : string) :
  last_char (Py.lowercase s) = option_map Py.lower (last_char s).
Proof.
  induction s as [|c s IH]; [reflexivity|].
  destruct s; [reflexivity | exact IH].
Qed.

Lemma rstrip_with_cases (p : ascii -> bool) (s : string) :
  Py.rstrip_with p s = s \/ exists c, last_char s = Some c /\ p c = true.
Proof.
  destruct (last_char s) as [c|] eqn:L.
  - destruct (p c) eqn:E.
    + right. eauto.
    + left. apply rstrip_with_fix. intros c' H. congruence.
  - left. apply rstrip_with_fix. intros c' H. congruence.
Qed.

(* ================================================================= *)
(** ** The numerals [float()] accepts *)

Lemma suffix_char_cases (c : ascii) :
  suffix_char c = true ->
  In c ["K"; "i"; "B"; "M"; "G"; "T"]%char.
Proof.
  unfold suffix_char. cbn [Py.in_chars].
  rewrite !orb_true_iff, !Ascii.eqb_eq. intros H. simpl.
  repeat (destruct H as [->|H]; [auto 10|]). discriminate.
Qed.

Ltac by_suffix_char H :=
  apply suffix_char_cases in H; simpl in H;
  repeat (destruct H as [<-|H]; [reflexivity|]); contradiction.

Lemma numeral_not_suffix (c : ascii) :
  numeral_char c = true -> suffix_char c = false.
Proof.
  intros N. destruct (suffix_char c) eqn:S; [|reflexivity].
  rewrite <- N. symmetry. by_suffix_char S.
Qed.

Lemma isspace_not_suffix (c : ascii) :
  Py.isspace c = true -> suffix_char c = false.
Proof.
  intros N. destruct (suffix_char c) eqn:S; [|reflexivity].
  rewrite <- N. symmetry. by_suffix_char S.
Qed.

Lemma lower_not_suffix (c : ascii) :
  In (Py.lower c) ["f"; "y"; "n"]%char -> suffix_char c = false.
Proof.
  intros N. destruct (suffix_char c) eqn:S; [|reflexivity].
  exfalso. apply suffix_char_cases in S. simpl in S.
  repeat (destruct S as [<-|S];
          [vm_compute in N; intuition discriminate|]).
  contradiction.
Qed.

Lemma sign_split (a : string) :
  exists g, a = g ++ snd (Py.sign a).
Proof.
  destruct a as [|c a]; [exists EmptyString; reflexivity|].
  unfold Py.sign.
  destruct (Ascii.eqb_spec c "-") as [->|].
  - exists "-". reflexivity.
  - destruct (Ascii.eqb_spec c "+") as [->|].
    + exists "+". reflexivity.
    + exists EmptyString.
      destruct c as [[] [] [] [] [] [] [] []]; try reflexivity; congruence.
Qed.

Lemma sign_forall (p : ascii -> bool) (a : string) :
  p "-"%char = true -> p "+"%char = true ->
  string_forall p (snd (Py.sign a)) = true -> string_forall p a = true.
Proof.
  intros Hm Hp. destruct a as [|c a]; [auto|].
  destruct (Ascii.eqb_spec c "-") as [->|].
  - simpl. rewrite Hm. auto.
  - destruct (Ascii.eqb_spec c "+") as [->|].
    + simpl. rewrite Hp. auto.
    + destruct c as [[] [] [] [] [] [] [] []]; try (intros H; exact H); congruence.
Qed.

Lemma digits_forall (p : ascii -> bool) (s : string) :
  (forall c d, Py.digit c = Some d -> p c = true) ->
  forall acc n, string_forall p (snd (Py.digits acc n s)) = true ->
  string_forall p s = true.
Proof.
  intros Hp. induction s as [|c s IH]; intros acc n; simpl; [auto|].
  destruct (Py.digit c) eqn:D.
  - intros H. rewrite (Hp _ _ D). simpl. eauto.
  - simpl. auto.
Qed.

Lemma numeral_char_digit (c : ascii) (d : Z) :
  Py.digit c = Some d -> numeral_char c = true.
Proof.
  intros D. unfold numeral_char. rewrite D.
  rewrite orb_true_r. reflexivity.
Qed.

Lemma lower_e (c : ascii) :
  Py.lower c = "e"%char -> c = "e"%char \/ c = "E"%char.
Proof.
  destruct c as [[] [] [] [] [] [] [] []]; vm_compute; intros H;
    try discriminate; auto.
Qed.

Lemma exponent_forall (r2 r3 : string) (e : Z) :
  Py.exponent r2 = Some (e, r3) ->
  string_forall numeral_char r3 = true -> string_forall numeral_char r2 = true.
Proof.
  unfold Py.exponent. destruct r2 as [|c s1]; [intros [= <- <-]; auto|].
  destruct (Ascii.eqb_spec (Py.lower c) "e") as [E|_].
  - destruct (Py.sign s1) as [neg s2] eqn:Sg.
    destruct (Py.digits 0 0 s2) as [[v n] rest] eqn:D.
    destruct n; [discriminate|]. intros [= <- <-] H.
    assert (Hc : numeral_char c = true).
    { destruct (lower_e c E) as [-> | ->]; reflexivity. }
    simpl. rewrite Hc. simpl.
    apply sign_forall; [reflexivity..|]. rewrite Sg. simpl.
    apply (digits_forall numeral_char s2 numeral_char_digit 0 0%nat).
    rewrite D. exact H.
  - intros [= <- <-] H. exact H.
Qed.

Lemma string_forall_impl (p q : ascii -> bool) (s : string) :
  (forall c, p c = true -> q c = true) ->
  string_forall p s = true -> string_forall q s = true.
Proof.
  intros I. induction s as [|c s IH]; simpl; [auto|].
  rewrite !andb_true_iff. intros [H1 H2]. auto.
Qed.

Lemma fraction_forall (ip : Z) (r1 : string) :
  string_forall numeral_char (snd (Py.fraction ip r1)) = true ->
  string_forall numeral_char r1 = true.
Proof.
  unfold Py.fraction. destruct r1 as [|c r]; [auto|].
  destruct (Ascii.eqb_spec c ".") as [->|_]; [|auto].
  intros H. simpl.
  exact (digits_forall numeral_char r numeral_char_digit ip 0%nat H).
Qed.

(** A string [float()] accepts is not empty and does not end with a
    character of a suffix. *)
Lemma float_of_string_last (p : string) (x : Py.float) (c : ascii) :
  Py.float_of_string p = Ok x -> last_char p = Some c -> suffix_char c = false.
Proof.
  unfold Py.float_of_string.
  destruct (lstrip_with_split Py.isspace p) as [w Hw].
  destruct (sign_split (Py.lstrip_with Py.isspace p)) as [g Hg].
  destruct (Py.sign (Py.lstrip_with Py.isspace p)) as [neg s1] eqn:Sg.
  simpl in Hg.
  destruct s1 as [|c1 s1']; [simpl; intros; discriminate|].
  remember (String c1 s1') as s1 eqn:Es1.
  intros H L.
  assert (L1 : last_char s1 = Some c).
  { rewrite Hw, Hg, !last_char_app in L by (subst s1; destruct g; discriminate).
    exact L. }
  clear Hw Hg Sg L w g.
  destruct (rstrip_with_cases Py.isspace s1) as [R | [c' [Lc Pc]]].
  2:{ rewrite L1 in Lc. injection Lc as <-. apply isspace_not_suffix, Pc. }
  rewrite R in H.
  assert (Low : forall k d, Py.lowercase s1 = k -> last_char k = Some d ->
                            Py.lower c = d).
  { intros k d <-. rewrite last_char_lowercase, L1. simpl. congruence. }
  destruct (String.eqb_spec (Py.lowercase s1) "inf") as [E|_].
  { apply lower_not_suffix. rewrite (Low _ "f"%char E eq_refl). simpl. auto. }
  destruct (String.eqb_spec (Py.lowercase s1) "infinity") as [E|_].
  { apply lower_not_suffix. rewrite (Low _ "y"%char E eq_refl). simpl. auto. }
  destruct (String.eqb_spec (Py.lowercase s1) "nan") as [E|_].
  { apply lower_not_suffix. rewrite (Low _ "n"%char E eq_refl). simpl. auto. }
  simpl in H.
  destruct (Py.digits 0 0 s1) as [[ip ni] r1] eqn:D1.
  destruct (Py.fraction ip r1) as [[m nf] r2] eqn:D2.
  destruct (ni + nf)%nat; [discriminate|].
  destruct (Py.exponent r2) as [[e r3]|] eqn:Ex; [|discriminate].
  destruct (Py.lstrip_with Py.isspace r3) eqn:Ls; [|discriminate].
  apply numeral_not_suffix.
  apply (last_char_forall numeral_char s1); [|exact L1].
  apply (digits_forall numeral_char s1 numeral_char_digit 0 0%nat).
  rewrite D1. simpl.
  apply (fraction_forall ip). rewrite D2. simpl.
  apply (exponent_forall _ _ _ Ex).
  apply (string_forall_impl Py.isspace).
  - intros d Hd. unfold numeral_char. rewrite Hd. reflexivity.
  - apply lstrip_with_nil, Ls.
Qed.

Lemma float_of_string_rstrip (p s : string) (x : Py.float) :
  Py.float_of_string p = Ok x ->
  string_forall suffix_char s = true ->
  Py.rstrip (p ++ s) s = p.
Proof.
  intros F S. unfold Py.rstrip.
  assert (I : forall c, Py.in_chars s c = true -> suffix_char c = true).
  { clear F. induction s as [|d s IH]; simpl; [discriminate|].
    simpl in S. apply andb_true_iff in S. destruct S as [Sd Ss].
    intros c H. apply orb_true_iff in H. destruct H as [H|H].
    - apply Ascii.eqb_eq in H. congruence.
    - auto. }
  apply rstrip_with_app.
  - clear F I S. 
    assert (G : forall t, (forall c, Py.in_chars t c = true -> Py.in_chars s c = true) ->
                          string_forall (Py.in_chars s) t = true).
    { induction t as [|d t IH]; simpl; [reflexivity|]. intros H.
      rewrite (H d), IH; [reflexivity | | ].
      - intros c Hc. apply H. rewrite Hc. apply orb_true_r.
      - rewrite Ascii.eqb_refl. reflexivity. }
    apply G. auto.
  - apply rstrip_with_fix. intros c L.
    pose proof (float_of_string_last p x c F L) as N.
    destruct (Py.in_chars s c) eqn:E; [|reflexivity].
    apply I in E. congruence.
Qed.

Lemma lstrip_with_idem (p : ascii -> bool) (s : string) :
  Py.lstrip_with p (Py.lstrip_with p s) = Py.lstrip_with p s.
Proof.
  induction s as [|c s IH]; simpl; [reflexivity|].
  destruct (p c) eqn:E; [exact IH|]. simpl. rewrite E. reflexivity.
Qed.

Lemma rstrip_with_last (p : ascii -> bool) (s : string) (c : ascii) :
  last_char (Py.rstrip_with p s) = Some c -> p c = false.
Proof.
  induction s as [|d s IH]; simpl; [discriminate|].
  destruct (Py.rstrip_with p s) as [|a t] eqn:R.
  - destruct (p d) eqn:E; simpl; [discriminate|]. congruence.
  - exact IH.
Qed.

Lemma strip_idem (s : string) : Py.strip (Py.strip s) = Py.strip s.
Proof.
  unfold Py.strip.
  set (r := Py.rstrip_with Py.isspace s).
  assert (R : Py.rstrip_with Py.isspace (Py.lstrip_with Py.isspace r)
              = Py.lstrip_with Py.isspace r).
  { apply rstrip_with_fix. intros c L.
    apply (rstrip_with_last Py.isspace s).
    destruct (lstrip_with_split Py.isspace r) as [w Hw]. fold r.
    rewrite Hw, last_char_app; [exact L|].
    intros E. rewrite E in L. discriminate. }
  rewrite R. apply lstrip_with_idem.
Qed.

(* ================================================================= *)
(** ** The numeric normalizer *)

Lemma scaled_prefix (p s : string) (n : Z) (x : Py.float) :
  Py.float_of_string p = Ok x ->
  string_forall suffix_char s = true ->
  scaled (p ++ s) s n = Py.int_of_float (Py.fmul x (Py.float_of_int n)).
Proof.
  intros F S. unfold scaled.
  rewrite (float_of_string_rstrip p s x F S), F. reflexivity.
Qed.

Ltac other_suffix :=
  rewrite endswith_other by (first [reflexivity | discriminate]).

Lemma scan_sizes (p s : string) (n : Z) :
  In (s, n) sizes ->
  scan_suffixes sizes (p ++ s) = Some (scaled (p ++ s) s n).
Proof.
  unfold sizes. cbn [In scan_suffixes].
  intros [H|[H|[H|[H|[]]]]]; injection H as <- <-;
    repeat other_suffix; rewrite endswith_app; reflexivity.
Qed.

Lemma scan_counts (p s : string) (n : Z) :
  In (s, n) counts ->
  scan_suffixes counts (p ++ s) = Some (scaled (p ++ s) s n).
Proof.
  unfold counts. cbn [In scan_suffixes].
  intros [H|[H|[H|[H|[]]]]]; injection H as <- <-;
    repeat other_suffix; rewrite endswith_app; reflexivity.
Qed.

Lemma scan_none (table : list (string * Z)) (v : string) :
  no_suffix table v -> scan_suffixes table v = None.
Proof.
  induction table as [|[s n] table IH]; intros H; simpl; [reflexivity|].
  rewrite (H s n (or_introl eq_refl)). apply IH.
  intros s' n' I. apply (H s' n'). right. exact I.
Qed.

Lemma table_suffix_chars (s : string) (n : Z) :
  In (s, n) (sizes ++ counts) -> string_forall suffix_char s = true.
Proof.
  unfold sizes, counts. cbn [In app].
  intros H. repeat (destruct H as [H|H]; [injection H as <- <-; reflexivity|]).
  contradiction.
Qed.

Lemma table_suffix_nonempty (s : string) (n : Z) :
  In (s, n) (sizes ++ counts) -> s <> EmptyString.
Proof.
  unfold sizes, counts. cbn [In app].
  intros H. repeat (destruct H as [H|H]; [injection H as <- <-; discriminate|]).
  contradiction.
Qed.

(** The iteration order of a table is immaterial (a Python 2 [dict]
    fixes none): at most one of its suffixes ends a given string. *)
Section AnyOrder.
Variable table0 : list (string * Z).
Hypothesis exclusive :
  forall p s n s' n',
    In (s, n) table0 -> In (s', n') table0 ->
    Py.endswith (p ++ s) s' = true -> (s, n) = (s', n').

Lemma scan_suffixes_found (t : list (string * Z)) (v : string) :
  match scan_suffixes t v with
  | Some r => exists s n, In (s, n) t /\ Py.endswith v s = true /\ r = scaled v s n
  | None => no_suffix t v
  end.
Proof.
  induction t as [|[s n] t IH]; simpl.
  - intros s n [].
  - destruct (Py.endswith v s) eqn:E.
    + exists s, n. auto.
    + destruct (scan_suffixes t v).
      * destruct IH as (s' & n' & I & E' & R). exists s', n'. auto.
      * intros s' n' [H|H]; [congruence | eauto].
Qed.

Lemma scan_suffixes_any_order (table : list (string * Z)) (v : string) :
  Permutation table0 table ->
  scan_suffixes table v = scan_suffixes table0 v.
Proof.
  intros P.
  pose proof (scan_suffixes_found table0 v) as G1.
  pose proof (scan_suffixes_found table v) as G2.
  destruct (scan_suffixes table0 v) as [a|], (scan_suffixes table v) as [b|].
  - destruct G1 as (s1 & n1 & I1 & E1 & ->), G2 as (s2 & n2 & I2 & E2 & ->).
    apply (Permutation_in _ (Permutation_sym P)) in I2.
    destruct (endswith_inv _ _ E1) as [p1 H1]. rewrite H1 in E2.
    injection (exclusive p1 s1 n1 s2 n2 I1 I2 E2) as <- <-. reflexivity.
  - destruct G1 as (s1 & n1 & I1 & E1 & _).
    apply (Permutation_in _ P) in I1. rewrite (G2 _ _ I1) in E1. discriminate.
  - destruct G2 as (s2 & n2 & I2 & E2 & _).
    apply (Permutation_in _ (Permutation_sym P)) in I2.
    rewrite (G1 _ _ I2) in E2. discriminate.
  - reflexivity.
Qed.
End AnyOrder.

Lemma sizes_exclusive (p s : string) (n : Z) (s' : string) (n' : Z) :
  In (s, n) sizes -> In (s', n') sizes ->
  Py.endswith (p ++ s) s' = true -> (s, n) = (s', n').
Proof.
  unfold sizes. cbn [In]. intros I1 I2 E.
  repeat (destruct I1 as [I1|I1]; [injection I1 as <- <-|]); try contradiction;
  repeat (destruct I2 as [I2|I2]; [injection I2 as <- <-|]); try contradiction;
    try reflexivity;
    rewrite endswith_other in E by (first [reflexivity | discriminate]);
    discriminate.
Qed.

Lemma counts_exclusive (p s : string) (n : Z) (s' : string) (n' : Z) :
  In (s, n) counts -> In (s', n') counts ->
  Py.endswith (p ++ s) s' = true -> (s, n) = (s', n').
Proof.
  unfold counts. cbn [In]. intros I1 I2 E.
  repeat (destruct I1 as [I1|I1]; [injection I1 as <- <-|]); try contradiction;
  repeat (destruct I2 as [I2|I2]; [injection I2 as <- <-|]); try contradiction;
    try reflexivity;
    rewrite endswith_other in E by (first [reflexivity | discriminate]);
    discriminate.
Qed.

Lemma convert_any_order (sizes' counts' : list (string * Z)) (val : string) :
  Permutation sizes sizes' -> Permutation counts counts' ->
  let v := Py.strip (Py.replace val "," EmptyString) in
  scan_suffixes sizes' v = scan_suffixes sizes v /\
  scan_suffixes counts' v = scan_suffixes counts v.
Proof.
  intros P1 P2 v. split.
  - apply (scan_suffixes_any_order sizes sizes_exclusive). exact P1.
  - apply (scan_suffixes_any_order counts counts_exclusive). exact P2.
Qed.

Lemma convert_unfold (val : string) :
  convert val =
  let orig := Py.strip val in
  let v := Py.strip (Py.replace val "," EmptyString) in
  if String.eqb v EmptyString then Ok (orig, 0)
  else match scan_suffixes sizes v with
       | Some r => n <- r ;; Ok (orig, n)
       | None =>
           match scan_suffixes counts v with
           | Some r => n <- r ;; Ok (orig, n)
           | None => n <- Py.int v ;; Ok (orig, n)
           end
       end.
Proof. unfold convert. rewrite strip_idem. reflexivity. Qed.

(** On numerals [convert] is the normalizer of the specification: blanks
    and commas are stripped; an empty remainder gives 0; a remainder made
    of a numeral and KiB, MiB, GiB or TiB gives the numeral, read as a
    double, times 2^10, 2^20, 2^30 or 2^40 and truncated; else a numeral
    and K, M, B or T gives the numeral times 10^3, 10^6, 10^9 or 10^12;
    else the remainder is read by [int()].  The four examples of the
    specification evaluate as stated. *)
Theorem convert_spec (val : string) :
  let orig := Py.strip val in
  let v := Py.strip (Py.replace val "," EmptyString) in
  (v = EmptyString -> convert val = Ok (orig, 0)) /\
  (forall p s n x,
      v = p ++ s -> In (s, n) sizes -> Py.float_of_string p = Ok x ->
      convert val =
        (k <- Py.int_of_float (Py.fmul x (Py.float_of_int n)) ;; Ok (orig, k))) /\
  (forall p s n x,
      v = p ++ s -> In (s, n) counts -> no_suffix sizes v ->
      Py.float_of_string p = Ok x ->
      convert val =
        (k <- Py.int_of_float (Py.fmul x (Py.float_of_int n)) ;; Ok (orig, k))) /\
  (v <> EmptyString -> no_suffix sizes v -> no_suffix counts v ->
   convert val = (k <- Py.int v ;; Ok (orig, k))) /\
  sizes = [("KiB", 2 ^ 10); ("MiB", 2 ^ 20); ("GiB", 2 ^ 30); ("TiB", 2 ^ 40)] /\
  counts = [("K", 10 ^ 3); ("M", 10 ^ 6); ("B", 10 ^ 9); ("T", 10 ^ 12)] /\
  convert "1.5KiB" = Ok ("1.5KiB", 1536) /\
  convert "2M" = Ok ("2M", 2000000) /\
  convert EmptyString = Ok (EmptyString, 0) /\
  convert "1,234" = Ok ("1,234", 1234).
Proof.
  intros orig v.
  assert (NE : forall p s n, In (s, n) (sizes ++ counts) ->
                 String.eqb (p ++ s) EmptyString = false).
  { intros p s n I. apply String.eqb_neq. intros E.
    apply (table_suffix_nonempty s n I).
    destruct p; [exact E | discriminate]. }
  repeat split; try reflexivity.
  - intros E. rewrite convert_unfold. fold v. rewrite E. reflexivity.
  - intros p s n x E I F. rewrite convert_unfold. fold v orig. rewrite E.
    cbv zeta. rewrite (NE p s n) by (apply in_or_app; auto).
    rewrite (scan_sizes p s n I), (scaled_prefix p s n x F); [reflexivity|].
    apply (table_suffix_chars s n). apply in_or_app. auto.
  - intros p s n x E I N F. rewrite convert_unfold. fold v orig. cbv zeta.
    rewrite (scan_none sizes v N). rewrite E.
    rewrite (NE p s n) by (apply in_or_app; auto).
    rewrite (scan_counts p s n I), (scaled_prefix p s n x F); [reflexivity|].
    apply (table_suffix_chars s n). apply in_or_app. auto.
  - intros N N1 N2. rewrite convert_unfold. fold v orig. cbv zeta.
    rewrite (scan_none sizes v N1), (scan_none counts v N2).
    apply String.eqb_neq in N. rewrite N. reflexivity.
Qed.

Lemma convert_spec_witness :
  convert " 24.2MiB" = Ok ("24.2MiB", 25375539) /\
  convert "3,500K" = Ok ("3,500K", 3500000) /\
  convert " -42 " = Ok ("-42", -42).
Proof.
  split; [|split].
  - pose proof (convert_spec " 24.2MiB") as (_ & H & _).
    rewrite (H "24.2" "MiB" (Z.shiftl 1 20) (Py.of_decimal false 242 (-1))).
    + reflexivity.
    + reflexivity.
    + right. left. reflexivity.
    + reflexivity.
  - pose proof (convert_spec "3,500K") as (_ & _ & H & _).
    rewrite (H "3500" "K" (10 ^ 3) (Py.of_decimal false 3500 0)).
    + reflexivity.
    + reflexivity.
    + left. reflexivity.
    + intros s n I. unfold sizes in I. cbn [In] in I.
      repeat (destruct I as [I|I]; [injection I as <- <-; reflexivity|]).
      contradiction.
    + reflexivity.
  - pose proof (convert_spec " -42 ") as (_ & _ & _ & H & _).
    rewrite H.
    + reflexivity.
    + discriminate.
    + intros s n I. unfold sizes in I. cbn [In] in I.
      repeat (destruct I as [I|I]; [injection I as <- <-; reflexivity|]).
      contradiction.
    + intros s n I. unfold counts in I. cbn [In] in I.
      repeat (destruct I as [I|I]; [injection I as <- <-; reflexivity|]).
      contradiction.
Defined.

(** C1.  The suffix is taken off by [rstrip], which strips every trailing
    character that occurs in the suffix and not the suffix alone.  For
    every input whose remainder ends with a suffix of a table (the sizes
    first), [float()] is given the remainder so stripped, and the result
    is that number times the multiplier, truncated.  The stripped
    remainder is the text before the suffix whenever that text is a
    numeral; it is not on [1KKiB] and [2KK], where the texts before the
    suffix, [1K] and [2K], are refused by [float()] and the code returns
    1024 and 2000. *)
Theorem convert_rstrip_suffix :
  (convert "1KKiB" = Ok ("1KKiB", 1024) /\
   Py.rstrip "1KKiB" "KiB" = "1" /\
   Py.float_of_string "1K" = Raise ValueError) /\
  (convert "2KK" = Ok ("2KK", 2000) /\
   Py.rstrip "2KK" "K" = "2" /\
   Py.float_of_string "2K" = Raise ValueError) /\
  (forall val p s n,
      Py.strip (Py.replace val "," EmptyString) = p ++ s ->
      In (s, n) sizes ->
      convert val =
        (x <- Py.float_of_string (Py.rstrip (p ++ s) s) ;;
         k <- Py.int_of_float (Py.fmul x (Py.float_of_int n)) ;;
         Ok (Py.strip val, k))) /\
  (forall val p s n,
      Py.strip (Py.replace val "," EmptyString) = p ++ s ->
      In (s, n) counts -> no_suffix sizes (p ++ s) ->
      convert val =
        (x <- Py.float_of_string (Py.rstrip (p ++ s) s) ;;
         k <- Py.int_of_float (Py.fmul x (Py.float_of_int n)) ;;
         Ok (Py.strip val, k))) /\
  (forall p s n x,
      In (s, n) (sizes ++ counts) -> Py.float_of_string p = Ok x ->
      Py.rstrip (p ++ s) s = p).
Proof.
  assert (NE : forall p s n, In (s, n) (sizes ++ counts) ->
                 String.eqb (p ++ s) EmptyString = false).
  { intros p s n I. apply String.eqb_neq. intros E.
    apply (table_suffix_nonempty s n I).
    destruct p; [exact E | discriminate]. }
  split; [|split; [|split; [|split]]].
  - repeat split; vm_compute; reflexivity.
  - repeat split; vm_compute; reflexivity.
  - intros val p s n E I. rewrite convert_unfold. cbv zeta. rewrite E.
    rewrite (NE p s n) by (apply in_or_app; auto).
    rewrite (scan_sizes p s n I). unfold scaled.
    destruct (Py.float_of_string (Py.rstrip (p ++ s) s)); reflexivity.
  - intros val p s n E I N. rewrite convert_unfold. cbv zeta. rewrite E.
    rewrite (NE p s n) by (apply in_or_app; auto).
    rewrite (scan_none sizes (p ++ s) N), (scan_counts p s n I). unfold scaled.
    destruct (Py.float_of_string (Py.rstrip (p ++ s) s)); reflexivity.
  - intros p s n x I F. apply (float_of_string_rstrip p s x F).
    apply (table_suffix_chars s n I).
Qed.

Lemma convert_rstrip_suffix_witness :
  convert " 7BiKiB" = Ok ("7BiKiB", 7168) /\
  convert "3,5KKK" = Ok ("3,5KKK", 35000) /\
  Py.rstrip ("24.2" ++ "MiB") "MiB" = "24.2".
Proof.
  destruct convert_rstrip_suffix as (_ & _ & H1 & H2 & H3).
  split; [|split].
  - rewrite (H1 " 7BiKiB" "7Bi" "KiB" (2 ^ 10)).
    + vm_compute. reflexivity.
    + vm_compute. reflexivity.
    + left. reflexivity.
  - rewrite (H2 "3,5KKK" "35KK" "K" (10 ^ 3)).
    + vm_compute. reflexivity.
    + vm_compute. reflexivity.
    + left. reflexivity.
    + intros s n I. unfold sizes in I. cbn [In] in I.
      repeat (destruct I as [I|I]; [injection I as <- <-; reflexivity|]).
      contradiction.
  - apply (H3 "24.2" "MiB" (2 ^ 20) (Py.of_decimal false 242 (-1))).
    + right. left. reflexivity.
    + vm_compute. reflexivity.
Defined.

(* ================================================================= *)
(** ** The fixed-width extractor *)

(** C2.  On the example rows the extractor returns the three labels in
    order, but the first value is 0 and not 19507: the label [.zip] ends
    at offset 6, the window starts at 6 - 9 = -3, and a negative start
    of a slice counts from the end of the value row, so the window is
    empty.  The two other windows start at 8 and 19 and give 16328 and
    22047. *)
Theorem getfields_zip_example :
  getfields zip_labels zip_values = Ok ([".zip"; ".pdf"; "other"], [0; 16328; 22047]) /\
  Py.index zip_labels ".zip" = Ok 2 /\
  Py.slice zip_values (2 + 4 - MaxField) (2 + 4 - MaxField + MaxField) = EmptyString /\
  Py.slice zip_values 0 6 = " 19507" /\
  Py.slice zip_values 8 17 = "    16328" /\
  Py.slice zip_values 19 28 = "    22047".
Proof. repeat split; reflexivity. Qed.

(** Where the window starts inside the value row, the value is the
    number in the nine characters that end below the end of the label. *)
Lemma slice_window (s : string) (i : Z) :
  0 <= i -> i + MaxField <= Py.len s ->
  Py.slice s i (i + MaxField) = String.substring (Z.to_nat i) 9 s.
Proof.
  intros H1 H2. unfold Py.slice, Py.adjust, MaxField in *.
  destruct (Z.ltb_spec i 0); [lia|].
  destruct (Z.ltb_spec (i + 9) 0); [lia|].
  rewrite !Z.min_l by lia.
  replace (Z.to_nat (i + 9 - i)) with 9%nat by lia. reflexivity.
Qed.

(* ================================================================= *)
(** ** The CSV parser: one histogram *)







(* ================================================================= *)
(** ** Dispatch on the file name *)

(** C10.  [fromFile] tests the last three characters of the path and
    nothing else: a path that ends with "csv", with or without a dot
    before it, goes to the CSV parser, and every other path goes to the
    parser of the Windows report. *)
Theorem fromFile_dispatch (fileName : string) (f : list string) :
  ((exists p, fileName = p ++ "csv") -> fromFile fileName f = fromCSV fileName f) /\
  ((~ exists p, fileName = p ++ "csv") -> fromFile fileName f = fromWindows fileName f) /\
  fromFile "reportcsv" f = fromCSV "reportcsv" f.
Proof.
  unfold fromFile. repeat split.
  - intros [p ->]. rewrite endswith_app. reflexivity.
  - intros N. destruct (Py.endswith fileName "csv") eqn:E; [|reflexivity].
    elim N. apply endswith_inv. exact E.
Qed.

Lemma fromFile_dispatch_witness :
  fromFile "stats.csv" (Py.readlines ("Total space used,7" ++ nl))
  = Ok (mkScanStats "stats.csv" [] [("Total space used", 7)] None 0 None) /\
  fromFile "stats.csv.txt" (Py.readlines ("Total space used: 7" ++ nl))
  = Ok (mkScanStats "stats.csv.txt" [] [("Total space used", 7)] None 0 None).
Proof.
  split.
  - rewrite (proj1 (fromFile_dispatch "stats.csv" _)).
    + reflexivity.
    + exists "stats.". reflexivity.
  - rewrite (proj1 (proj2 (fromFile_dispatch "stats.csv.txt" _))).
    + reflexivity.
    + intros [p E]. apply (f_equal (fun s => Py.endswith s "csv")) in E.
      rewrite endswith_app in E. discriminate.
Defined.

(* ================================================================= *)
(** ** The CSV parser: the line after a label row *)


Lemma split_hd_prefix (l : string) (sep : ascii) (t : string) :
  hd_error (Py.split l sep) = Some t -> exists r, l = t ++ r.
Proof.
  revert t. induction l as [|c l IH]; simpl; intros t.
  - intros [= <-]. exists EmptyString. reflexivity.
  - destruct (Py.split l sep) as [|t' fs] eqn:E; [discriminate|].
    destruct (Ascii.eqb c sep); simpl; intros [= <-].
    + exists (String c l). reflexivity.
    + destruct (IH t' eq_refl) as [r ->]. exists r. reflexivity.
Qed.

Lemma mem_In (x : string) (l : list string) : Py.mem x l = true -> In x l.
Proof.
  unfold Py.mem. intros H. apply existsb_exists in H.
  destruct H as (y & I & E). apply String.eqb_eq in E. congruence.
Qed.

Lemma getitem_next {A} (l : list A) (n : nat) (x : A) :
  nth_error l (S n) = Some x -> Py.getitem l (Z.of_nat n + 1) = Ok x.
Proof.
  intros H. unfold Py.getitem.
  assert (S n < List.length l)%nat by (apply nth_error_Some; congruence).
  destruct (Z.ltb_spec (Z.of_nat n + 1) 0); [lia|].
  destruct (Z.ltb_spec (Z.of_nat n + 1) 0); [lia|].
  destruct (Z.leb_spec (Z.of_nat (List.length l)) (Z.of_nat n + 1)); [lia|].
  simpl. replace (Z.to_nat (Z.of_nat n + 1)) with (S n) by lia.
  rewrite H. reflexivity.
Qed.

(** A line whose first field is the title of a histogram is neither the
    scan line nor the summary line, and the title is not empty. *)
Lemma histogram_line_kind (line title : string) :
  hd_error (Py.split line ",") = Some title ->
  Py.mem title Histograms = true ->
  Py.startswith line "scan " = false /\
  Py.startswith line ("summary," ++ dquote) = false /\
  exists c t, title = String c t.
Proof.
  intros F M. destruct (split_hd_prefix _ _ _ F) as [r ->].
  apply mem_In in M. unfold Histograms in M. cbn [In] in M.
  repeat (destruct M as [<-|M]; [repeat split; eauto|]). contradiction.
Qed.

(** C7 (as amended).  The line marked to be skipped is the line right
    after the label row, the one the values were just read from.  When
    the loop reaches it, the whole line must start with the title that
    set the mark: if it does, the line is skipped with no further
    processing and the mark is cleared; if it does not, the parse of the
    file fails with an assertion error.  The test is a prefix test, not
    an equality on the first field. *)
Theorem fromCSV_skip_check (lines : list string) (lineNum : nat)
    (line next : string) (todo : list string) (self : ScanStats) (title : string) :
  truthy (skip1 self) = false ->
  hd_error (Py.split line ",") = Some title ->
  Py.mem title Histograms = true ->
  nth_error lines (S lineNum) = Some next ->
  fromCSV_loop lines lineNum (line :: next :: todo) self =
  if Py.startswith next title then
    fromCSV_loop lines (S (S lineNum)) todo
      (set_hists (set_skip1 self None) title
         (mkHisto title (tl (Py.split line ",")) (map VStr (tl (Py.split next ",")))))
  else Raise AssertionError.
Proof.
  intros T F M N.
  destruct (histogram_line_kind line title F M) as (K1 & K2 & c & t & Et).
  cbn [fromCSV_loop]. unfold fromCSV_body at 1, fromCSV_fields.
  assert (B : forall (X : Type) (a : string -> X) (b : X),
             match skip1 self with
             | Some (String _ _ as t) => a t
             | _ => b
             end = b).
  { intros X a b. destruct (skip1 self) as [[|]|]; try reflexivity. discriminate. }
  rewrite B. rewrite K1, K2. cbn [andb].
  destruct (Py.split line ",") as [|t0 fs] eqn:S; [discriminate|].
  injection F as ->. rewrite M, (getitem_next _ _ _ N).
  cbn [bind tl]. unfold fromCSV_body.
  cbn [skip1 set_skip1 set_hists]. rewrite Et. rewrite <- Et.
  destruct (Py.startswith next title); reflexivity.
Qed.

Lemma fromCSV_skip_check_witness :
  fromCSV "scan.csv" depthx_lines =
  Ok (mkScanStats "scan.csv"
        [("Depth", mkHisto "Depth" ["a"; "b" ++ nl] [VStr "1"; VStr ("2" ++ nl)])]
        [] None 0 None) /\
  fromCSV "scan.csv" ["Depth,a,b" ++ nl; "Modified,1,2" ++ nl] = Raise AssertionError.
Proof.
  split.
  - unfold fromCSV, depthx_lines.
    rewrite (fromCSV_skip_check _ 0 _ ("Depthx,1,2" ++ nl) [] _ "Depth");
      reflexivity.
  - unfold fromCSV.
    rewrite (fromCSV_skip_check _ 0 _ ("Modified,1,2" ++ nl) [] _ "Depth");
      reflexivity.
Defined.

(** C7 as stated fails.  The first field of the skipped line is "Depthx",
    not the title "Depth", and the parse succeeds; and the line after
    the value row is never checked, whatever its first field. *)
Lemma fromCSV_skip_check_counterexample :
  (hd_error (Py.split ("Depthx,1,2" ++ nl) ",") = Some "Depthx" /\
   exists st, fromCSV "scan.csv" depthx_lines = Ok st) /\
  (hd_error (Py.split ("Directories,5" ++ nl) ",") = Some "Directories" /\
   exists st, fromCSV "scan.csv" depth_then_scalar = Ok st /\
              Py.get (single st) "Directories" = Some 5).
Proof.
  split; (split; [reflexivity|]); eexists; [|split]; reflexivity.
Qed.

(* ================================================================= *)
(** ** The Windows parser: what follows a title line *)

Lemma matches_no_rule_inert (lines : list string) (lineNum : nat)
    (line : string) (self : ScanStats) :
  matches_no_rule line = true ->
  fromWindows_body lines lineNum line self = Ok self.
Proof.
  unfold matches_no_rule, fromWindows_body, errors_rule.
  rewrite !andb_true_iff, !negb_true_iff. intros [[[H1 H2] H3] H4].
  rewrite H1, H2. cbn [bind]. rewrite H3.
  destruct (Py.partition line ":") as [[t m] s]. cbn [fst] in H4.
  cbv beta iota. rewrite H4. reflexivity.
Qed.

Lemma spec_resume_loop_agrees (lines : list string) (todo : list string) :
  forall (lineNum skip : nat) (self : ScanStats),
    passed_over_inert todo skip ->
    spec_resume_loop lines lineNum todo skip self
    = fromWindows_loop lines lineNum todo self.
Proof.
  induction todo as [|line todo IH]; intros lineNum skip self H;
    [reflexivity|].
  cbn [spec_resume_loop fromWindows_loop passed_over_inert] in *.
  destruct skip as [|k].
  - destruct (fromWindows_body lines lineNum line self); [|reflexivity].
    cbn [bind]. apply IH. exact H.
  - destruct H as [H1 H2].
    rewrite (matches_no_rule_inert lines lineNum line self H1).
    cbn [bind]. apply IH. exact H2.
Qed.

(** C8 (as amended).  After a line matches the title of a histogram and
    the two lines after it have gone through the extractor, the loop
    goes on with the very next line: the label row and the value row are
    evaluated against the rules like any other line.  The outcome is
    that of resuming after the two rows whenever neither of them matches
    a rule. *)
Theorem fromWindows_resumes_at_label_row (fileName : string) (lines : list string) :
  (forall lineNum line todo self self1 line1 line2 names nums,
      Py.startswith line "xcp scan" = false ->
      errors_rule line self = Ok self1 ->
      Py.mem (section_title line) Histograms = true ->
      Py.getitem lines (Z.of_nat lineNum + 1) = Ok line1 ->
      Py.getitem lines (Z.of_nat lineNum + 2) = Ok line2 ->
      getfields line1 line2 = Ok (names, nums) ->
      fromWindows_loop lines lineNum (line :: todo) self =
      fromWindows_loop lines (S lineNum) todo
        (set_hists self1 (section_title line)
           (mkHisto (section_title line) names (map VInt nums)))) /\
  (passed_over_inert lines 0 ->
   fromWindows fileName lines = spec_fromWindows fileName lines).
Proof.
  split.
  - intros lineNum line todo self self1 line1 line2 names nums S E M G1 G2 F.
    cbn [fromWindows_loop]. unfold fromWindows_body.
    rewrite S, E. cbn [bind]. rewrite M, G1, G2. cbn [bind].
    rewrite F. reflexivity.
  - intros H. unfold fromWindows, spec_fromWindows.
    symmetry. apply spec_resume_loop_agrees. exact H.
Qed.

Lemma fromWindows_resumes_at_label_row_witness :
  fromWindows_loop space_used_lines 0 space_used_lines (init "scan.txt") =
  fromWindows_loop space_used_lines 1 (tl space_used_lines)
    (set_hists (init "scan.txt") "Space used"
       (mkHisto "Space used" ["empty"; "<8KiB"; "8-64KiB"]
          [VInt 0; VInt 25375539; VInt 713031680])) /\
  fromWindows "scan.txt" space_used_lines = spec_fromWindows "scan.txt" space_used_lines.
Proof.
  destruct (fromWindows_resumes_at_label_row "scan.txt" space_used_lines) as [A B].
  split.
  - exact (A 0%nat ("== Space used ==" ++ nl) (tl space_used_lines)
             (init "scan.txt") (init "scan.txt")
             ("     empty      <8KiB    8-64KiB" ++ nl)
             ("         0    24.2MiB     680MiB" ++ nl)
             ["empty"; "<8KiB"; "8-64KiB"] [0; 25375539; 713031680]
             eq_refl eq_refl eq_refl eq_refl eq_refl eq_refl).
  - apply B. simpl. repeat split; reflexivity.
Defined.

(** C8 as stated fails.  The label row " Modified" is itself evaluated:
    it matches a title, so a second histogram is read from the two lines
    after it, which a parser that resumes after the consumed rows never
    stores. *)
Lemma fromWindows_resumes_counterexample :
  fromWindows "scan.txt" nested_title_lines =
  Ok (mkScanStats "scan.txt"
        [("Depth", mkHisto "Depth" ["Modified"] [VInt 5]);
         ("Modified", mkHisto "Modified" ["5"] [VInt 7])]
        [] None 0 None) /\
  spec_fromWindows "scan.txt" nested_title_lines =
  Ok (mkScanStats "scan.txt"
        [("Depth", mkHisto "Depth" ["Modified"] [VInt 5])]
        [] None 0 None) /\
  fromWindows "scan.txt" nested_title_lines
  <> spec_fromWindows "scan.txt" nested_title_lines.
Proof.
  split; [reflexivity|]. split; [reflexivity|]. discriminate.
Qed.

(* ================================================================= *)
(** ** Loops and dictionaries *)

Lemma for_each_Forall2 {A B} (f : A -> result B) (l : list A) (bs : list B) :
  Py.for_each f l = Ok bs -> Forall2 (fun a b => f a = Ok b) l bs.
Proof.
  revert bs. induction l as [|a l IH]; simpl; intros bs.
  - intros [= <-]. constructor.
  - destruct (f a) as [b|] eqn:E; [|discriminate]. cbn [bind].
    destruct (Py.for_each f l) as [bs'|]; [|discriminate]. cbn [bind].
    intros [= <-]. constructor; auto.
Qed.

Lemma for_each_ok {A B} (f : A -> result B) (l : list A) :
  (forall a, In a l -> exists b, f a = Ok b) ->
  exists bs, Py.for_each f l = Ok bs.
Proof.
  induction l as [|a l IH]; simpl; intros H; [eauto|].
  destruct (H a (or_introl eq_refl)) as [b ->].
  destruct IH as [bs ->]; [auto|]. cbn [bind]. eauto.
Qed.

Lemma for_each_ext {A B} (f g : A -> result B) (l : list A) :
  (forall a, In a l -> f a = g a) -> Py.for_each f l = Py.for_each g l.
Proof.
  induction l as [|a l IH]; simpl; intros H; [reflexivity|].
  rewrite (H a (or_introl eq_refl)), IH; auto.
Qed.

Lemma getitem_nth {A} (l : list A) (n : nat) (x : A) :
  nth_error l n = Some x -> Py.getitem l (Z.of_nat n) = Ok x.
Proof.
  intros H. unfold Py.getitem.
  assert (n < List.length l)%nat by (apply nth_error_Some; congruence).
  destruct (Z.ltb_spec (Z.of_nat n) 0); [lia|].
  destruct (Z.ltb_spec (Z.of_nat n) 0); [lia|].
  destruct (Z.leb_spec (Z.of_nat (List.length l)) (Z.of_nat n)); [lia|].
  simpl. rewrite Nat2Z.id, H. reflexivity.
Qed.



(* ================================================================= *)
(** ** The sort *)

Lemma insert_desc_perm {A} (x : value * A) (l : list (value * A)) :
  Permutation (x :: l) (insert_desc x l).
Proof.
  induction l as [|y l IH]; simpl; [reflexivity|].
  destruct (value_ltb (fst x) (fst y)); [|reflexivity].
  rewrite perm_swap. constructor. exact IH.
Qed.

Lemma sort_desc_perm {A} (l : list (value * A)) : Permutation l (sort_desc l).
Proof.
  induction l as [|x l IH]; simpl; [constructor|].
  rewrite <- insert_desc_perm. constructor. exact IH.
Qed.

Lemma insert_desc_sorted {A} (x : value * A) (l : list (value * A)) :
  int_key x -> Forall int_key l ->
  StronglySorted int_key_ge l -> StronglySorted int_key_ge (insert_desc x l).
Proof.
  intros [a Ha] Hl S. induction S as [|y l S IH F]; simpl.
  - repeat constructor.
  - inversion Hl as [|? ? [b Hb] Hl']; subst.
    unfold value_ltb. rewrite Ha, Hb. simpl.
    destruct (Z.compare_spec a b) as [E|L|G].
    + constructor; [constructor; assumption|].
      constructor.
      * exists a, b. repeat split; auto; lia.
      * eapply Forall_impl; [|exact F].
        intros z (b' & c & Eb & Ec & Le). exists a, c.
        rewrite Hb in Eb. injection Eb as <-. repeat split; auto; lia.
    + constructor; [apply IH; assumption|].
      apply (Permutation_Forall (insert_desc_perm x l)).
      constructor; [|exact F].
      exists b, a. repeat split; auto; lia.
    + constructor; [constructor; assumption|].
      constructor.
      * exists a, b. repeat split; auto; lia.
      * eapply Forall_impl; [|exact F].
        intros z (b' & c & Eb & Ec & Le). exists a, c.
        rewrite Hb in Eb. injection Eb as <-. repeat split; auto; lia.
Qed.

Lemma sort_desc_sorted {A} (l : list (value * A)) :
  Forall int_key l -> StronglySorted int_key_ge (sort_desc l).
Proof.
  induction l as [|x l IH]; simpl; intros H; [constructor|].
  inversion H; subst. apply insert_desc_sorted; auto.
  apply (Permutation_Forall (sort_desc_perm l)). assumption.
Qed.

Lemma value_compare_eq (a b : value) : value_compare a b = Eq <-> a = b.
Proof.
  destruct a as [|x|x], b as [|y|y]; simpl; split; intros H;
    try discriminate; try reflexivity.
  - apply Z.compare_eq_iff in H. congruence.
  - injection H as ->. apply Z.compare_refl.
  - apply String.compare_eq_iff in H. congruence.
  - injection H as ->. pose proof (String.compare_antisym y y) as S.
    destruct (String.compare y y); [reflexivity | discriminate..].
Qed.

Lemma has_key_true {A} (k : value) (x : value * A) :
  has_key k x = true <-> fst x = k.
Proof.
  unfold has_key. rewrite <- value_compare_eq.
  destruct (value_compare (fst x) k); split; congruence.
Qed.

(** The sort is stable: the rows of one key keep their input order. *)
Lemma insert_desc_stable {A} (k : value) (x : value * A) (l : list (value * A)) :
  filter (has_key k) (insert_desc x l) = filter (has_key k) (x :: l).
Proof.
  induction l as [|y l IH]; [reflexivity|].
  cbn [insert_desc]. destruct (value_ltb (fst x) (fst y)) eqn:L; [|reflexivity].
  cbn [filter] in *. rewrite IH.
  destruct (has_key k x) eqn:Hx, (has_key k y) eqn:Hy; try reflexivity.
  apply has_key_true in Hx, Hy. unfold value_ltb in L.
  rewrite Hx, Hy, (proj2 (value_compare_eq k k) eq_refl) in L. discriminate.
Qed.

Lemma sort_desc_stable {A} (k : value) (l : list (value * A)) :
  filter (has_key k) (sort_desc l) = filter (has_key k) l.
Proof.
  induction l as [|x l IH]; [reflexivity|].
  cbn [sort_desc fold_right]. rewrite insert_desc_stable.
  cbn [filter]. fold (sort_desc l). rewrite IH. reflexivity.
Qed.

(* ================================================================= *)
(** ** Headers and rows *)

Lemma hcells_cons (f : Histo -> nat) (stats : ScanStats) (title : string)
    (titles : list string) :
  hcells f stats (title :: titles) =
  ((if shown title then
      match Py.get (hists stats) title with
      | Some h => f h
      | None => O
      end
    else O) + hcells f stats titles)%nat.
Proof.
  unfold hcells. simpl. destruct (shown title); reflexivity.
Qed.

Lemma hcells_ext (f g : Histo -> nat) (s1 s2 : ScanStats) (titles : list string) :
  (forall title, In title titles -> shown title = true ->
     match Py.get (hists s1) title with Some h => f h | None => O end
     = match Py.get (hists s2) title with Some h => g h | None => O end) ->
  hcells f s1 titles = hcells g s2 titles.
Proof.
  induction titles as [|t titles IH]; intros H; [reflexivity|].
  rewrite !hcells_cons, IH by (intros; apply H; simpl; auto).
  destruct (shown t) eqn:E; [|reflexivity].
  rewrite (H t (or_introl eq_refl) E). reflexivity.
Qed.

Lemma header_loop_length (fileNames : list string) (d : Py.dict ScanStats)
    (name0 : string) (stats0 : ScanStats) (titles : list string) :
  hd_error fileNames = Some name0 -> Py.get d name0 = Some stats0 ->
  forall h0 h, exists h0' h',
    header_loop titles fileNames d h0 h = Ok (h0', h') /\
    List.length h' = (List.length h + hcells (fun x => List.length (labels x)) stats0 titles)%nat /\
    List.length h0' =
      (List.length h0
       + hcells (fun x => Nat.max 1 (List.length (labels x))) stats0 titles)%nat.
Proof.
  intros Hn Hd.
  assert (G : Py.getitem fileNames 0 = Ok name0).
  { apply (getitem_nth fileNames 0). destruct fileNames; [discriminate | exact Hn]. }
  induction titles as [|t titles IH]; intros h0 h.
  - exists h0, h. unfold hcells. simpl. repeat split; lia.
  - cbn [header_loop]. rewrite !hcells_cons. unfold shown.
    destruct (String.eqb t "Top File Extensions").
    + destruct (IH h0 h) as (a & b & E & L1 & L2).
      exists a, b. simpl. auto.
    + rewrite G. cbn [bind]. unfold lookup. rewrite Hd. cbn [of_option bind negb].
      destruct (Py.get (hists stats0) t) as [x|].
      * destruct (IH (h0 ++ [t] ++ repeat EmptyString
                         (Z.to_nat (Z.of_nat (List.length (labels x)) - 1)))%list
                     (h ++ labels x)%list) as (a & b & E & L1 & L2).
        exists a, b. split; [exact E|].
        rewrite L1, L2, !length_app, repeat_length. cbn [List.length].
        split; lia.
      * destruct (IH h0 h) as (a & b & E & L1 & L2).
        exists a, b. simpl. auto.
Qed.

Lemma row_loop_app (stats : ScanStats) (titles : list string) :
  forall row, exists extra,
    row_loop titles stats row = (row ++ extra)%list /\
    List.length extra = hcells (fun x => List.length (values x)) stats titles.
Proof.
  induction titles as [|t titles IH]; intros row.
  - exists []. rewrite app_nil_r. split; reflexivity.
  - cbn [row_loop]. rewrite hcells_cons. unfold shown.
    destruct (String.eqb t "Top File Extensions"); cbn [negb].
    + exact (IH row).
    + destruct (Py.get (hists stats) t) as [x|].
      * destruct (IH (row ++ values x)%list) as (extra & E & L).
        exists (values x ++ extra)%list. rewrite E, <- app_assoc, length_app.
        split; [reflexivity | lia].
      * exact (IH row).
Qed.

(** A data row: the name, the error count, the source, the seven
    scalars, then the values of the histograms of its own record. *)
Lemma mkrow_spec (d : Py.dict ScanStats) (name : string) (stats : ScanStats) :
  Py.get d name = Some stats ->
  exists row,
    mkrow d name = Ok row /\
    List.length row = (10 + cells (fun x => List.length (values x)) stats)%nat /\
    nth_error row 0 = Some (VStr name) /\
    nth_error row 3
    = Some (opt_value VInt (Py.get (single stats) "Total space used")).
Proof.
  intros G. unfold mkrow, lookup. rewrite G. cbn [of_option bind].
  match goal with |- context [row_loop Histograms stats ?r] =>
    destruct (row_loop_app stats Histograms r) as (extra & E & L);
    exists (r ++ extra)%list; rewrite E
  end.
  split; [reflexivity|]. split; [|split; reflexivity].
  rewrite length_app, L. reflexivity.
Qed.

Lemma mkheaders_spec (fileNames : list string) (d : Py.dict ScanStats)
    (name0 : string) (stats0 : ScanStats) :
  hd_error fileNames = Some name0 -> Py.get d name0 = Some stats0 ->
  exists h0 h,
    mkheaders fileNames d = Ok (h0, h) /\
    List.length h = (10 + cells (fun x => List.length (labels x)) stats0)%nat /\
    List.length h0 =
      (10 + cells (fun x => Nat.max 1 (List.length (labels x))) stats0)%nat.
Proof.
  intros Hn Hd. unfold mkheaders.
  match goal with |- context [header_loop _ _ _ ?a ?b] =>
    destruct (header_loop_length fileNames d name0 stats0 Histograms Hn Hd a b)
      as (h0 & h & E & L1 & L2)
  end.
  exists h0, h. split; [exact E|]. split; [exact L1 | exact L2].
Qed.

Lemma sort_rows_spec (rows : list (list value)) :
  Forall (fun row => exists k, nth_error row 3 = Some k) rows ->
  exists sorted,
    sort_rows rows = Ok sorted /\ Permutation rows sorted /\
    (Forall (fun row => exists n, nth_error row 3 = Some (VInt n)) rows ->
     StronglySorted key_ge sorted).
Proof.
  intros H.
  set (keyed := map (fun row => (nth 3 row VNone, row)) rows).
  assert (E : Py.for_each (fun row => k <- Py.getitem row 3 ;; Ok (k, row)) rows
              = Ok keyed).
  { subst keyed. induction H as [|row rows [k Hk] H IH]; [reflexivity|].
    cbn [Py.for_each map]. pose proof (getitem_nth row 3 k Hk) as Gk.
    change (Z.of_nat 3) with 3 in Gk. rewrite Gk. cbn [bind].
    rewrite IH. cbn [bind]. rewrite (nth_error_nth _ _ _ Hk). reflexivity. }
  assert (S : map snd keyed = rows).
  { subst keyed. rewrite map_map. simpl. apply map_id. }
  exists (map snd (sort_desc keyed)). unfold sort_rows. rewrite E. cbn [bind].
  split; [reflexivity|]. split.
  - rewrite <- S at 1. apply Permutation_map, sort_desc_perm.
  - intros I.
    assert (K : Forall (fun x : value * list value =>
                          int_key x /\ nth_error (snd x) 3 = Some (fst x)) keyed).
    { subst keyed. clear -I. induction I as [|row rows [n Hn] I IH]; simpl;
        constructor; auto.
      split; [exists n|]; simpl; rewrite (nth_error_nth _ _ _ Hn); auto. }
    apply (Permutation_Forall (sort_desc_perm keyed)) in K.
    assert (SS : StronglySorted int_key_ge (sort_desc keyed)).
    { apply sort_desc_sorted. subst keyed. clear -I.
      induction I as [|row rows [n Hn] I IH]; simpl; constructor; auto.
      exists n. simpl. rewrite (nth_error_nth _ _ _ Hn). reflexivity. }
    clear -K SS. induction SS as [|x l SS IH F]; simpl; [constructor|].
    inversion K as [|? ? [_ Kx] Kl]; subst.
    constructor; [auto|].
    clear -F Kx Kl. induction F as [|y l (a & b & Ea & Eb & Le) F IH]; simpl;
      [constructor|].
    inversion Kl as [|? ? [_ Ky] Kl']; subst.
    constructor; [|auto].
    exists a, b. rewrite Kx, Ky, Ea, Eb. auto.
Qed.

Lemma rows_spec (d : Py.dict ScanStats) (fileNames : list string) :
  (forall name, In name fileNames -> exists stats, Py.get d name = Some stats) ->
  exists rows,
    Py.for_each (mkrow d) fileNames = Ok rows /\
    Forall2 (fun name row =>
               exists stats, Py.get d name = Some stats /\
                 List.length row
                 = (10 + cells (fun x => List.length (values x)) stats)%nat /\
                 nth_error row 0 = Some (VStr name) /\
                 nth_error row 3
                 = Some (opt_value VInt (Py.get (single stats) "Total space used")))
            fileNames rows.
Proof.
  induction fileNames as [|name names IH]; intros H.
  - exists []. split; [reflexivity | constructor].
  - destruct (H name (or_introl eq_refl)) as [stats G].
    destruct (mkrow_spec d name stats G) as (row & E & P).
    destruct IH as (rows & Er & F); [intros; apply H; right; assumption|].
    exists (row :: rows). cbn [Py.for_each]. rewrite E, Er. cbn [bind].
    split; [reflexivity|]. constructor; [|exact F]. exists stats. auto.
Qed.

Lemma Forall2_Forall_r {A B} (P : A -> B -> Prop) (Q : B -> Prop)
    (l : list A) (l' : list B) :
  (forall a b, In a l -> P a b -> Q b) -> Forall2 P l l' -> Forall Q l'.
Proof.
  intros H F. induction F as [|a b l l' Pab F IH]; constructor.
  - apply (H a b); [left; reflexivity | exact Pab].
  - apply IH. intros a' b' I. apply H. right. exact I.
Qed.

(** The aggregator returns a table as soon as there is a first file and
    every file has a record. *)
Lemma aggregate_spec (fileNames : list string) (d : Py.dict ScanStats)
    (name0 : string) (stats0 : ScanStats) :
  hd_error fileNames = Some name0 -> Py.get d name0 = Some stats0 ->
  (forall name, In name fileNames -> exists stats, Py.get d name = Some stats) ->
  exists t0 t,
    build fileNames d = Ok t0 /\ aggregate fileNames d = Ok t /\
    header0 t = header0 t0 /\ header t = header t0 /\
    Permutation (rows t0) (rows t) /\
    (Forall (fun row => exists n, nth_error row 3 = Some (VInt n)) (rows t0) ->
     StronglySorted key_ge (rows t)) /\
    List.length (header t)
    = (10 + cells (fun x => List.length (labels x)) stats0)%nat /\
    List.length (header0 t)
    = (10 + cells (fun x => Nat.max 1 (List.length (labels x))) stats0)%nat /\
    Forall2 (fun name row =>
               exists stats, Py.get d name = Some stats /\
                 List.length row
                 = (10 + cells (fun x => List.length (values x)) stats)%nat /\
                 nth_error row 0 = Some (VStr name) /\
                 nth_error row 3
                 = Some (opt_value VInt (Py.get (single stats) "Total space used")))
            fileNames (rows t0).
Proof.
  intros Hn Hd Hall.
  destruct (mkheaders_spec fileNames d name0 stats0 Hn Hd) as (h0 & h & Eh & L & L0).
  destruct (rows_spec d fileNames Hall) as (rs & Er & F).
  assert (K : Forall (fun row : list value => exists k, nth_error row 3 = Some k) rs).
  { eapply Forall2_Forall_r; [|exact F].
    intros name row _ (stats & _ & _ & _ & E). eauto. }
  destruct (sort_rows_spec rs K) as (sorted & Es & P & S).
  exists (mkTable h0 h rs), (mkTable h0 h sorted).
  unfold aggregate, build. rewrite Eh. cbn [bind]. rewrite Er. cbn [bind rows].
  rewrite Es. cbn [bind header0 header rows]. repeat split; auto.
Qed.

(* ================================================================= *)
(** ** Column counts *)

(** C4 (as amended).  The header rows take their histogram columns from
    the reference record, the record of the first file, alone: a title
    absent from it contributes no header cell.  A data row takes the
    cells of every histogram of its own record.  So the two header rows
    and every data row have the same column count when every record
    holds the shown histograms of the reference record and no other,
    each with at least one label and as many values as labels. *)
Theorem aggregate_column_parity (fileNames : list string) (d : Py.dict ScanStats)
    (name0 : string) (stats0 : ScanStats) :
  hd_error fileNames = Some name0 -> Py.get d name0 = Some stats0 ->
  (forall name, In name fileNames ->
     exists stats, Py.get d name = Some stats /\ same_shape stats0 stats) ->
  exists t,
    aggregate fileNames d = Ok t /\
    List.length (header t)
    = (10 + cells (fun x => List.length (labels x)) stats0)%nat /\
    List.length (header0 t) = List.length (header t) /\
    Forall (fun row => List.length row = List.length (header t)) (rows t).
Proof.
  intros Hn Hd Hall.
  destruct (aggregate_spec fileNames d name0 stats0 Hn Hd)
    as (t0 & t & _ & E & _ & _ & P & _ & L & L0 & F).
  { intros name I. destruct (Hall name I) as (stats & G & _). eauto. }
  exists t. split; [exact E|]. split; [exact L|]. split.
  - rewrite L, L0. f_equal. apply hcells_ext. intros title I Sh.
    assert (I0 : In name0 fileNames) by (destruct fileNames; [discriminate|];
      injection Hn as ->; left; reflexivity).
    destruct (Hall name0 I0) as (s & G & Shape). rewrite Hd in G. injection G as <-.
    specialize (Shape title I Sh).
    destruct (Py.get (hists stats0) title) as [x|]; [|reflexivity].
    destruct Shape as [N _]. destruct (labels x); [contradiction | reflexivity].
  - apply (Permutation_Forall P).
    eapply Forall2_Forall_r; [|exact F].
    intros name row I (stats & G & Lr & _). rewrite Lr, L. f_equal.
    destruct (Hall name I) as (s & G' & Shape). rewrite G in G'. injection G' as <-.
    apply hcells_ext. intros title It Sh. specialize (Shape title It Sh).
    destruct (Py.get (hists stats0) title), (Py.get (hists stats) title);
      try contradiction; [|reflexivity]. apply Shape.
Qed.

Lemma aggregate_column_parity_witness :
  snd (parse_all fs_alike ["a.csv"; "b.csv"] []) = Ok records_alike /\
  exists t,
    aggregate ["a.csv"; "b.csv"] records_alike = Ok t /\
    List.length (header t) = 12%nat /\
    List.length (header0 t) = List.length (header t) /\
    Forall (fun row => List.length row = List.length (header t)) (rows t).
Proof.
  split; [reflexivity|].
  apply (aggregate_column_parity ["a.csv"; "b.csv"] records_alike "a.csv"
           (depth_record "a.csv" [("Total space used", 100); ("Regular files", 7)]
              "1" "2") eq_refl eq_refl).
  intros name [<-|[<-|[]]]; eexists; (split; [reflexivity|]);
    intros title I _; unfold Histograms in I; cbn [In] in I;
    repeat (destruct I as [<-|I];
            [vm_compute; first [exact Logic.I | split; [discriminate | reflexivity]]|]);
    contradiction.
Defined.

(** C4 as stated fails.  The first file has no "Created" histogram and
    the second has one: the header rows have 12 cells, and the row of
    the second file has 14. *)
Lemma aggregate_column_parity_counterexample :
  exists d t,
    snd (parse_all fs_mixed ["a.csv"; "b.csv"] []) = Ok d /\
    aggregate ["a.csv"; "b.csv"] d = Ok t /\
    option_map (fun s => Py.get (hists s) "Created") (Py.get d "a.csv") = Some None /\
    List.length (header0 t) = 12%nat /\ List.length (header t) = 12%nat /\
    map (fun row => (nth_error row 0, List.length row)) (rows t)
    = [(Some (VStr "b.csv"), 14%nat); (Some (VStr "a.csv"), 12%nat)].
Proof.
  eexists. eexists. split; [vm_compute; reflexivity|].
  split; [vm_compute; reflexivity|].
  repeat split; vm_compute; reflexivity.
Qed.

(* ================================================================= *)
(** ** The order of the rows *)

Lemma build_ok_summary (fileNames : list string) (d : Py.dict ScanStats) (t : Table) :
  build fileNames d = Ok t -> exists msg, summary fileNames d = Ok msg.
Proof.
  unfold build, summary. destruct (mkheaders fileNames d) as [[h0 h]|]; [|discriminate].
  cbn [bind]. destruct (Py.for_each (mkrow d) fileNames) as [rs|] eqn:E; [|discriminate].
  intros _. apply for_each_Forall2 in E.
  destruct (for_each_ok (lookup d) fileNames) as [recs ->]; [|cbn [bind]; eauto].
  intros name I.
  assert (G : exists row, mkrow d name = Ok row).
  { clear -E I. induction E as [|a b l l' H E IH]; [contradiction|].
    destruct I as [<-|I]; eauto. }
  destruct G as [row G]. unfold mkrow in G.
  destruct (lookup d name) as [stats|]; [eauto | discriminate].
Qed.

(** The file written holds the serialized table of [aggregate]. *)
Lemma main_aggregate (fs : string -> option string) (fileNames : list string) :
  snd (main fs fileNames) =
  (d <- snd (parse_all fs fileNames []) ;;
   t <- aggregate fileNames d ;;
   Ok (serialize t)).
Proof.
  unfold main, aggregate.
  destruct (parse_all fs fileNames []) as [out [d|e]]; [|reflexivity].
  cbn [snd bind].
  destruct (build fileNames d) as [t|e] eqn:B; [|reflexivity].
  destruct (build_ok_summary fileNames d t B) as [msg ->].
  cbn [snd bind]. destruct (sort_rows (rows t)); reflexivity.
Qed.

(** C5.  When every record has the "Total space used" scalar, the
    aggregator returns a table whose data rows are the rows built for
    the files, reordered so that the fourth column, the one of that
    scalar, is descending; these are the rows the script writes.  Three
    records with the values 100, 300 and 200 come out in the order 300,
    200, 100. *)
Theorem aggregate_sorted :
  (forall fileNames d,
      fileNames <> [] ->
      (forall name, In name fileNames ->
         exists stats n, Py.get d name = Some stats /\
                         Py.get (single stats) "Total space used" = Some n) ->
      exists t0 t,
        build fileNames d = Ok t0 /\ aggregate fileNames d = Ok t /\
        Permutation (rows t0) (rows t) /\ StronglySorted key_ge (rows t)) /\
  (forall d n1 n2 n3 s1 s2 s3,
      Py.get d n1 = Some s1 -> Py.get d n2 = Some s2 -> Py.get d n3 = Some s3 ->
      Py.get (single s1) "Total space used" = Some 100 ->
      Py.get (single s2) "Total space used" = Some 300 ->
      Py.get (single s3) "Total space used" = Some 200 ->
      exists t,
        aggregate [n1; n2; n3] d = Ok t /\
        map (fun row => (nth_error row 0, nth_error row 3)) (rows t)
        = [(Some (VStr n2), Some (VInt 300));
           (Some (VStr n3), Some (VInt 200));
           (Some (VStr n1), Some (VInt 100))]) /\
  (forall fs fileNames,
      snd (main fs fileNames) =
      (d <- snd (parse_all fs fileNames []) ;;
       t <- aggregate fileNames d ;;
       Ok (serialize t))).
Proof.
  split; [|split].
  - intros fileNames d Hne Hall.
    destruct fileNames as [|name0 names]; [contradiction|].
    destruct (Hall name0 (or_introl eq_refl)) as (stats0 & n0 & G0 & _).
    destruct (aggregate_spec (name0 :: names) d name0 stats0 eq_refl G0)
      as (t0 & t & B & E & _ & _ & P & S & _ & _ & F).
    { intros name I. destruct (Hall name I) as (stats & n & G & _). eauto. }
    exists t0, t. repeat split; auto. apply S.
    eapply Forall2_Forall_r; [|exact F].
    intros name row I (stats & G & _ & _ & K).
    destruct (Hall name I) as (stats' & n & G' & T).
    rewrite G in G'. injection G' as <-. rewrite T in K. eauto.
  - intros d n1 n2 n3 s1 s2 s3 G1 G2 G3 T1 T2 T3.
    destruct (mkrow_spec d n1 s1 G1) as (r1 & E1 & _ & H1 & K1).
    destruct (mkrow_spec d n2 s2 G2) as (r2 & E2 & _ & H2 & K2).
    destruct (mkrow_spec d n3 s3 G3) as (r3 & E3 & _ & H3 & K3).
    rewrite T1 in K1. rewrite T2 in K2. rewrite T3 in K3. cbn [opt_value] in *.
    destruct (mkheaders_spec [n1; n2; n3] d n1 s1 eq_refl G1) as (h0 & h & Eh & _).
    exists (mkTable h0 h [r2; r3; r1]).
    unfold aggregate, build. rewrite Eh. cbn [bind Py.for_each].
    rewrite E1, E2, E3. cbn [bind rows]. unfold sort_rows. cbn [Py.for_each].
    pose proof (getitem_nth r1 3 _ K1) as A1.
    pose proof (getitem_nth r2 3 _ K2) as A2.
    pose proof (getitem_nth r3 3 _ K3) as A3.
    change (Z.of_nat 3) with 3 in A1, A2, A3.
    rewrite A1, A2, A3. cbn [bind]. split; [reflexivity|].
    cbn [rows map]. rewrite H1, H2, H3, K1, K2, K3. reflexivity.
  - exact main_aggregate.
Qed.

Lemma aggregate_sorted_witness :
  exists t,
    snd (main fs_three ["a.csv"; "b.csv"; "c.csv"]) = Ok (serialize t) /\
    StronglySorted key_ge (rows t) /\
    map (fun row => (nth_error row 0, nth_error row 3)) (rows t)
    = [(Some (VStr "b.csv"), Some (VInt 300));
       (Some (VStr "c.csv"), Some (VInt 200));
       (Some (VStr "a.csv"), Some (VInt 100))].
Proof.
  destruct aggregate_sorted as (A & B & C).
  set (names := ["a.csv"; "b.csv"; "c.csv"]).
  set (d := [("a.csv", mkScanStats "a.csv" [] [("Total space used", 100)] None 0 None);
             ("b.csv", mkScanStats "b.csv" [] [("Total space used", 300)] None 0 None);
             ("c.csv", mkScanStats "c.csv" [] [("Total space used", 200)] None 0 None)]).
  assert (P : snd (parse_all fs_three names []) = Ok d) by reflexivity.
  destruct (A names d) as (t0 & t & _ & E & _ & S).
  { discriminate. }
  { intros name [<-|[<-|[<-|[]]]]; eexists; eexists; split; reflexivity. }
  destruct (B d "a.csv" "b.csv" "c.csv" _ _ _ eq_refl eq_refl eq_refl
              eq_refl eq_refl eq_refl) as (t' & E' & M).
  fold names in E'. rewrite E in E'. injection E' as <-.
  exists t. rewrite C, P. cbn [bind]. rewrite E. cbn [bind]. auto.
Defined.

(* ================================================================= *)
(** ** A file that fails to parse *)

Lemma parse_all_ok_prefix (fs : string -> option string) (names1 rest : list string) :
  (forall name, In name names1 -> exists stats, parse_one fs name = Ok stats) ->
  forall d0, exists d1,
    parse_all fs (names1 ++ rest) d0 = parse_all fs rest d1.
Proof.
  induction names1 as [|name names1 IH]; intros H d0; [exists d0; reflexivity|].
  destruct (H name (or_introl eq_refl)) as [stats E].
  unfold parse_one in E. cbn [app parse_all]. rewrite E.
  apply IH. intros n I. apply H. right. exact I.
Qed.

(** C6 (as amended).  An exception raised while one input file is
    parsed is raised again by the handler of the loop: the run ends
    with that exception at that file, the files after it are not
    parsed, and no output table is written. *)
Theorem parse_error_aborts_batch (fs : string -> option string)
    (names1 : list string) (bad : string) (names2 : list string) (e : exn) :
  (forall name, In name names1 -> exists stats, parse_one fs name = Ok stats) ->
  parse_one fs bad = Raise e ->
  snd (main fs (names1 ++ bad :: names2)) = Raise e.
Proof.
  intros H E. unfold main.
  destruct (parse_all_ok_prefix fs names1 (bad :: names2) H []) as [d1 ->].
  cbn [parse_all]. unfold parse_one in E. rewrite E. reflexivity.
Qed.

Lemma parse_error_aborts_batch_witness :
  snd (main fs_bad ["good.csv"; "bad.csv"; "good.csv"]) = Raise ValueError.
Proof.
  apply (parse_error_aborts_batch fs_bad ["good.csv"] "bad.csv" ["good.csv"]).
  - intros name [<-|[]]. eexists. reflexivity.
  - reflexivity.
Defined.

(** C6 as stated fails.  With a malformed file first in the batch the
    run ends with the exception of that file: no table is written, so
    the well-formed file after it contributes no row, although on its
    own it gives one; and nothing is printed about the failure. *)
Lemma parse_error_aborts_batch_counterexample :
  main fs_bad ["bad.csv"; "good.csv"] = ([], Raise ValueError) /\
  (exists out table, main fs_bad ["good.csv"] = (out, Ok table) /\
                     List.length table = 3%nat).
Proof.
  split; [reflexivity|]. eexists. eexists. split; reflexivity.
Qed.

(* ================================================================= *)
(** ** The aggregator as a function of the records *)

Lemma getitem_In {A} (l : list A) (i : Z) (x : A) :
  Py.getitem l i = Ok x -> In x l.
Proof.
  unfold Py.getitem. destruct (_ || _)%bool; [discriminate|].
  destruct (nth_error l _) eqn:E; [|discriminate].
  intros [= <-]. eapply nth_error_In. exact E.
Qed.

Lemma header_loop_same (fileNames : list string) (d1 d2 : Py.dict ScanStats)
    (titles : list string) :
  same_records fileNames d1 d2 ->
  forall h0 h, header_loop titles fileNames d1 h0 h
               = header_loop titles fileNames d2 h0 h.
Proof.
  intros S. induction titles as [|t titles IH]; intros h0 h; [reflexivity|].
  cbn [header_loop]. destruct (String.eqb t "Top File Extensions"); [apply IH|].
  destruct (Py.getitem fileNames 0) as [name0|] eqn:G; [|reflexivity].
  cbn [bind]. apply getitem_In in G. specialize (S name0 G). unfold lookup.
  destruct (Py.get d1 name0) as [a|], (Py.get d2 name0) as [b|];
    try contradiction; [|reflexivity].
  cbn [of_option bind]. destruct S as (_ & _ & Sh & _). rewrite Sh.
  destruct (Py.get (hists b) t); apply IH.
Qed.

Lemma row_loop_same (a b : ScanStats) (titles : list string) :
  (forall k, Py.get (hists a) k = Py.get (hists b) k) ->
  forall row, row_loop titles a row = row_loop titles b row.
Proof.
  intros Sh. induction titles as [|t titles IH]; intros row; [reflexivity|].
  cbn [row_loop]. rewrite Sh.
  destruct (String.eqb t "Top File Extensions"); [apply IH|].
  destruct (Py.get (hists b) t); apply IH.
Qed.

Lemma mkrow_same (fileNames : list string) (d1 d2 : Py.dict ScanStats) (name : string) :
  same_records fileNames d1 d2 -> In name fileNames ->
  mkrow d1 name = mkrow d2 name.
Proof.
  intros S I. specialize (S name I). unfold mkrow, lookup.
  destruct (Py.get d1 name) as [a|], (Py.get d2 name) as [b|];
    try contradiction; [|reflexivity].
  cbn [of_option bind]. destruct S as (Ss & Se & Sh & Sv).
  rewrite Ss, Se, (row_loop_same a b Histograms Sh). do 2 f_equal.
  f_equal. apply map_ext. intros t. rewrite Sv. reflexivity.
Qed.

(** C9.  The table of the aggregator, header rows and sorted data rows,
    and so the bytes written, is a function of the file names in the
    order supplied and of what the records hold under each key: two
    runs over records with the same content give the same result,
    whatever the order in which the dictionaries were filled. *)
Theorem aggregate_deterministic (fileNames : list string)
    (d1 d2 : Py.dict ScanStats) :
  same_records fileNames d1 d2 ->
  aggregate fileNames d1 = aggregate fileNames d2 /\
  (t <- aggregate fileNames d1 ;; Ok (serialize t))
  = (t <- aggregate fileNames d2 ;; Ok (serialize t)).
Proof.
  intros S.
  assert (E : aggregate fileNames d1 = aggregate fileNames d2).
  { unfold aggregate, build, mkheaders.
    rewrite (header_loop_same fileNames d1 d2 Histograms S).
    rewrite (for_each_ext (mkrow d1) (mkrow d2) fileNames); [reflexivity|].
    intros name I. apply (mkrow_same fileNames); assumption. }
  rewrite E. split; reflexivity.
Qed.

Lemma aggregate_deterministic_witness :
  records_alike <> records_reordered /\
  aggregate ["a.csv"; "b.csv"] records_alike
  = aggregate ["a.csv"; "b.csv"] records_reordered.
Proof.
  split; [discriminate|].
  apply (aggregate_deterministic ["a.csv"; "b.csv"] records_alike records_reordered).
  intros name [<-|[<-|[]]]; (split; [reflexivity|]);
    (split; [reflexivity|]); (split; [reflexivity|]); intros k; simpl;
    (destruct (String.eqb_spec k "Total space used") as [->|]; [reflexivity|]);
    destruct (String.eqb_spec k "Regular files") as [->|]; reflexivity.
Defined.

(* ================================================================= *)
(** ** Numbers written and read back *)

Lemma digits_cons (c : ascii) (k acc : Z) (n : nat) (s : string) :
  Py.digit c = Some k ->
  Py.digits acc n (String c s) = Py.digits (10 * acc + k) (S n) s.
Proof. intros H. cbn [Py.digits]. rewrite H. reflexivity. Qed.

Lemma digits_string_of_uint (d : Decimal.uint) :
  forall acc n rest,
    Py.digits acc n (NilEmpty.string_of_uint d ++ rest)
    = Py.digits (uint_value acc d) (Decimal.nb_digits d + n) rest.
Proof.
  induction d; intros acc n rest;
    cbn [NilEmpty.string_of_uint append uint_value Decimal.nb_digits];
    try reflexivity;
    erewrite digits_cons by reflexivity;
    rewrite IHd, ?Z.add_0_r; f_equal; lia.
Qed.

Lemma uint_value_pos (d : Decimal.uint) :
  forall acc, uint_value (Zpos acc) d = Zpos (Pos.of_uint_acc d acc).
Proof.
  induction d; intros acc; cbn [uint_value Pos.of_uint_acc];
    try reflexivity;
    rewrite <- IHd; f_equal; lia.
Qed.

Lemma uint_value_0 (d : Decimal.uint) :
  uint_value 0 d = Z.of_N (Pos.of_uint d).
Proof.
  induction d; cbn [uint_value Pos.of_uint]; try reflexivity;
    try (exact IHd);
    match goal with
    | |- uint_value ?a _ = _ =>
        let p := eval cbv in a in
        change a with p; rewrite uint_value_pos; reflexivity
    end.
Qed.

Lemma lstrip_with_app (p : ascii -> bool) (w s : string) :
  string_forall p w = true ->
  Py.lstrip_with p (w ++ s) = Py.lstrip_with p s.
Proof.
  induction w as [|c w IH]; simpl; [reflexivity|].
  intros H. apply andb_true_iff in H. destruct H as [-> H]. auto.
Qed.

Lemma lstrip_with_blank (p : ascii -> bool) (w : string) :
  string_forall p w = true -> Py.lstrip_with p w = EmptyString.
Proof.
  intros H. rewrite <- (append_nil_r w), lstrip_with_app by exact H. reflexivity.
Qed.

(** The text of an integer: a minus sign for a negative one, then the
    digits of its absolute value, at least one. *)
Lemma str_of_int_shape (n : Z) :
  exists d,
    d <> Decimal.Nil /\
    Py.str_of_int n
    = (if n <? 0 then "-" else EmptyString) ++ NilEmpty.string_of_uint d /\
    uint_value 0 d = Z.abs n.
Proof.
  unfold Py.str_of_int. destruct n as [|p|p].
  - exists (Decimal.D0 Decimal.Nil). repeat split. discriminate.
  - exists (Pos.to_uint p). split; [apply DecimalPos.Unsigned.to_uint_nonnil|].
    split.
    + cbn [Z.to_int NilZero.string_of_int]. unfold NilZero.string_of_uint.
      pose proof (DecimalPos.Unsigned.to_uint_nonnil p).
      destruct (Pos.to_uint p); [contradiction | reflexivity..].
    + rewrite uint_value_0, DecimalPos.Unsigned.of_to. reflexivity.
  - exists (Pos.to_uint p). split; [apply DecimalPos.Unsigned.to_uint_nonnil|].
    split.
    + cbn [Z.to_int NilZero.string_of_int]. unfold NilZero.string_of_uint.
      pose proof (DecimalPos.Unsigned.to_uint_nonnil p).
      destruct (Pos.to_uint p); [contradiction | reflexivity..].
    + rewrite uint_value_0, DecimalPos.Unsigned.of_to. reflexivity.
Qed.

Lemma string_of_uint_head (d : Decimal.uint) (rest : string) :
  d <> Decimal.Nil ->
  Py.lstrip_with Py.isspace (NilEmpty.string_of_uint d ++ rest)
  = NilEmpty.string_of_uint d ++ rest /\
  Py.sign (NilEmpty.string_of_uint d ++ rest)
  = (false, NilEmpty.string_of_uint d ++ rest).
Proof. destruct d; [contradiction | split; reflexivity..]. Qed.

Lemma nb_digits_pos (d : Decimal.uint) :
  d <> Decimal.Nil -> exists k, Decimal.nb_digits d = S k.
Proof. destruct d; [contradiction | simpl; eauto..]. Qed.

Lemma isspace_not_digit (c : ascii) :
  Py.isspace c = true -> Py.digit c = None.
Proof.
  destruct c as [[] [] [] [] [] [] [] []]; vm_compute; intros H;
    try discriminate; reflexivity.
Qed.

Lemma digits_blank (w : string) (v : Z) (n : nat) :
  blank w -> Py.digits v n w = (v, n, w).
Proof.
  unfold blank. destruct w as [|c w]; [reflexivity|]. simpl.
  intros H. apply andb_true_iff in H. destruct H as [H _].
  rewrite (isspace_not_digit c H). reflexivity.
Qed.

(** [int()] reads back what [str()] writes, blanks around it or not. *)
Lemma int_str_of_int (n : Z) (w1 w2 : string) :
  blank w1 -> blank w2 ->
  Py.int (w1 ++ Py.str_of_int n ++ w2) = Ok n.
Proof.
  intros B1 B2. unfold Py.int. rewrite lstrip_with_app by exact B1.
  destruct (str_of_int_shape n) as (d & Nd & -> & V).
  destruct (string_of_uint_head d w2 Nd) as [L Sg].
  destruct (nb_digits_pos d Nd) as [k K].
  assert (D : Py.digits 0 0 (NilEmpty.string_of_uint d ++ w2)
              = (Z.abs n, S k, w2)).
  { rewrite digits_string_of_uint, V, K, Nat.add_0_r.
    apply digits_blank. exact B2. }
  destruct (Z.ltb_spec n 0).
  - rewrite append_assoc.
    change ("-" ++ NilEmpty.string_of_uint d ++ w2)
      with (String "-" (NilEmpty.string_of_uint d ++ w2)).
    cbn [Py.lstrip_with]. replace (Py.isspace "-") with false by reflexivity.
    cbn [Py.sign]. rewrite L, D, (lstrip_with_blank _ w2 B2).
    f_equal. lia.
  - cbn [append]. rewrite L, Sg, L, D, (lstrip_with_blank _ w2 B2).
    f_equal. lia.
Qed.

Lemma string_forall_app (p : ascii -> bool) (a b : string) :
  string_forall p (a ++ b) = (string_forall p a && string_forall p b)%bool.
Proof.
  induction a as [|c a IH]; simpl; [reflexivity|].
  rewrite IH, andb_assoc. reflexivity.
Qed.

Lemma str_of_int_chars (n : Z) : string_forall int_char (Py.str_of_int n) = true.
Proof.
  destruct (str_of_int_shape n) as (d & _ & -> & _).
  rewrite string_forall_app. apply andb_true_iff. split.
  - destruct (n <? 0); reflexivity.
  - clear. induction d; simpl; auto.
Qed.

Lemma str_of_int_nonempty (n : Z) : Py.str_of_int n <> EmptyString.
Proof.
  destruct (str_of_int_shape n) as (d & Nd & -> & _).
  destruct (n <? 0); [discriminate|]. destruct d; [contradiction | discriminate..].
Qed.

Lemma int_char_cases (c : ascii) :
  int_char c = true ->
  Py.isspace c = false /\ Ascii.eqb c "," = false /\ numeral_char c = true.
Proof.
  destruct c as [[] [] [] [] [] [] [] []]; vm_compute; intros H;
    try discriminate; repeat split.
Qed.

(* ================================================================= *)
(** ** The normalizer on padded and separated text *)

Lemma rstrip_with_blank (p : ascii -> bool) (w : string) :
  string_forall p w = true -> Py.rstrip_with p w = EmptyString.
Proof.
  induction w as [|c w IH]; simpl; [reflexivity|].
  intros H. apply andb_true_iff in H. destruct H as [Hc Hw].
  rewrite (IH Hw), Hc. reflexivity.
Qed.

Lemma rstrip_with_nil (p : ascii -> bool) (x : string) :
  Py.rstrip_with p x = EmptyString -> string_forall p x = true.
Proof.
  induction x as [|c x IH]; simpl; [reflexivity|].
  destruct (Py.rstrip_with p x); [|discriminate].
  destruct (p c); [intros _; auto | discriminate].
Qed.

Lemma rstrip_with_app_l (p : ascii -> bool) (a b : string) :
  Py.rstrip_with p b <> EmptyString ->
  Py.rstrip_with p (a ++ b) = a ++ Py.rstrip_with p b.
Proof.
  intros N. induction a as [|c a IH]; [reflexivity|].
  change (String c a ++ b) with (String c (a ++ b)).
  change (Py.rstrip_with p (String c (a ++ b)))
    with (match Py.rstrip_with p (a ++ b) with
          | EmptyString => if p c then EmptyString else String c EmptyString
          | r => String c r
          end).
  rewrite IH.
  change (String c a ++ Py.rstrip_with p b)
    with (String c (a ++ Py.rstrip_with p b)).
  destruct (a ++ Py.rstrip_with p b) eqn:E; [|reflexivity].
  destruct a; simpl in E; [contradiction | discriminate].
Qed.

Lemma rstrip_with_app_blank (p : ascii -> bool) (a w : string) :
  string_forall p w = true ->
  Py.rstrip_with p (a ++ w) = Py.rstrip_with p a.
Proof.
  intros H. induction a as [|c a IH].
  - simpl. apply rstrip_with_blank, H.
  - change (String c a ++ w) with (String c (a ++ w)).
    change (Py.rstrip_with p (String c (a ++ w)))
      with (match Py.rstrip_with p (a ++ w) with
            | EmptyString => if p c then EmptyString else String c EmptyString
            | r => String c r
            end).
    rewrite IH. reflexivity.
Qed.

(** [strip] drops any blanks put around a text. *)
Lemma strip_padded (w1 s w2 : string) :
  blank w1 -> blank w2 -> Py.strip (w1 ++ s ++ w2) = Py.strip s.
Proof.
  intros B1 B2. unfold Py.strip.
  rewrite <- append_assoc, rstrip_with_app_blank by exact B2.
  destruct (Py.rstrip_with Py.isspace s) eqn:R.
  - apply rstrip_with_nil in R.
    rewrite rstrip_with_blank; [reflexivity|].
    rewrite string_forall_app, R. unfold blank in B1. rewrite B1. reflexivity.
  - rewrite rstrip_with_app_l, R by (rewrite R; discriminate).
    apply lstrip_with_app, B1.
Qed.

Lemma replace_app (a b : string) (old : ascii) (new : string) :
  Py.replace (a ++ b) old new = Py.replace a old new ++ Py.replace b old new.
Proof.
  induction a as [|c a IH]; simpl; [reflexivity|].
  rewrite IH. destruct (Ascii.eqb c old); [|reflexivity].
  rewrite append_assoc. reflexivity.
Qed.

Lemma replace_absent (s : string) (old : ascii) (new : string) :
  string_forall (fun c => negb (Ascii.eqb c old)) s = true ->
  Py.replace s old new = s.
Proof.
  induction s as [|c s IH]; simpl; [reflexivity|].
  intros H. apply andb_true_iff in H. destruct H as [Hc Hs].
  apply negb_true_iff in Hc. rewrite Hc, (IH Hs). reflexivity.
Qed.

Lemma blank_no_comma (w : string) :
  blank w -> string_forall (fun c => negb (Ascii.eqb c ",")) w = true.
Proof.
  apply string_forall_impl. intros c H.
  destruct (Ascii.eqb_spec c ",") as [->|]; [discriminate | reflexivity].
Qed.

(** [convert] is a function of the stripped text and of the stripped
    text without its commas. *)
Lemma convert_same_text (val1 val2 : string) :
  Py.strip (Py.replace val1 "," EmptyString)
  = Py.strip (Py.replace val2 "," EmptyString) ->
  number (convert val1) = number (convert val2).
Proof.
  intros E. rewrite !convert_unfold. cbv zeta. rewrite E.
  destruct (String.eqb _ _); [reflexivity|].
  destruct (scan_suffixes sizes _) as [[n|e]|]; try reflexivity.
  destruct (scan_suffixes counts _) as [[n|e]|]; try reflexivity.
  destruct (Py.int _); reflexivity.
Qed.

Lemma convert_blanks (w1 s w2 : string) :
  blank w1 -> blank w2 -> convert (w1 ++ s ++ w2) = convert s.
Proof.
  intros B1 B2. rewrite !convert_unfold. cbv zeta.
  rewrite !replace_app.
  rewrite (replace_absent w1), (replace_absent w2) by (apply blank_no_comma; assumption).
  rewrite !strip_padded by assumption. reflexivity.
Qed.

(** X1.  Blanks around a text change nothing, neither the display
    string nor the number: a field cut out of a right-justified column
    converts like its bare text. *)
Theorem convert_padded (w1 s w2 : string) :
  blank w1 -> blank w2 -> convert (w1 ++ s ++ w2) = convert s.
Proof. exact (convert_blanks w1 s w2). Qed.

Lemma convert_padded_witness :
  convert ("    " ++ "24.2MiB" ++ nl) = Ok ("24.2MiB", 25375539).
Proof.
  rewrite (convert_padded "    " "24.2MiB" nl); vm_compute; reflexivity.
Defined.

(** X2.  A comma anywhere in the text leaves the number unchanged: commas are
    dropped wherever they stand, not only between groups of three
    digits. *)
Theorem convert_comma_anywhere (a b : string) :
  number (convert (a ++ "," ++ b)) = number (convert (a ++ b)).
Proof.
  apply convert_same_text. rewrite !replace_app. reflexivity.
Qed.

(** X3.  The text that [str()] gives for an integer converts to that
    integer, with blanks around it or not: the scalars of the two
    report formats and the cells of the table agree on plain numbers. *)
Theorem convert_str_of_int (n : Z) (w1 w2 : string) :
  blank w1 -> blank w2 ->
  convert (w1 ++ Py.str_of_int n ++ w2) = Ok (Py.str_of_int n, n).
Proof.
  intros B1 B2. rewrite convert_blanks by assumption.
  pose proof (str_of_int_chars n) as C.
  assert (St : Py.strip (Py.str_of_int n) = Py.str_of_int n).
  { rewrite <- (strip_padded EmptyString (Py.str_of_int n) EmptyString) by reflexivity.
    cbn [append]. rewrite append_nil_r.
    unfold Py.strip.
    assert (R : Py.rstrip_with Py.isspace (Py.str_of_int n) = Py.str_of_int n).
    { apply rstrip_with_fix. intros c L.
      apply (last_char_forall int_char _ _ C) in L.
      apply int_char_cases in L. apply L. }
    rewrite R. destruct (Py.str_of_int n) as [|c s] eqn:E; [reflexivity|].
    simpl in C. apply andb_true_iff in C. destruct C as [Cc _].
    apply int_char_cases in Cc. destruct Cc as [Sp _].
    cbn [Py.lstrip_with]. rewrite Sp. reflexivity. }
  assert (Rp : Py.replace (Py.str_of_int n) "," EmptyString = Py.str_of_int n).
  { apply replace_absent. eapply string_forall_impl; [|exact C].
    intros c H. apply int_char_cases in H. destruct H as (_ & -> & _). reflexivity. }
  assert (Ns : no_suffix (sizes ++ counts) (Py.str_of_int n)).
  { intros s k I. destruct (Py.endswith _ s) eqn:E; [|reflexivity]. exfalso.
    apply endswith_inv in E. destruct E as [p E].
    pose proof (table_suffix_nonempty s k I) as Ne.
    pose proof (table_suffix_chars s k I) as Sc.
    destruct (last_char s) as [c|] eqn:L.
    - pose proof (last_char_forall _ _ _ Sc L) as H1.
      assert (L' : last_char (Py.str_of_int n) = Some c)
        by (rewrite E, last_char_app; assumption).
      apply (last_char_forall int_char _ _ C) in L'.
      apply int_char_cases in L'. destruct L' as (_ & _ & Nc).
      apply numeral_not_suffix in Nc. congruence.
    - destruct s as [|c s]; [contradiction|].
      clear -L. revert c L. induction s as [|c' s IH]; intros c L;
        [discriminate | exact (IH c' L)]. }
  rewrite convert_unfold. cbv zeta. rewrite Rp, St.
  rewrite (proj2 (String.eqb_neq _ _) (str_of_int_nonempty n)).
  rewrite (scan_none sizes), (scan_none counts)
    by (intros s k I; apply (Ns s k); apply in_or_app; auto).
  pose proof (int_str_of_int n EmptyString EmptyString eq_refl eq_refl) as I.
  cbn [append] in I. rewrite append_nil_r in I. rewrite I. reflexivity.
Qed.

Lemma convert_str_of_int_witness :
  convert ("   " ++ Py.str_of_int 19507 ++ nl) = Ok ("19507", 19507).
Proof. exact (convert_str_of_int 19507 "   " nl eq_refl eq_refl). Defined.

(* ================================================================= *)
(** ** What the parsers keep *)

Lemma set_Forall {V} (P : string * V -> Prop) (d : Py.dict V) (k : string) (v : V) :
  Forall P d -> P (k, v) -> Forall P (Py.set d k v).
Proof.
  intros F H. induction F as [|[k' v'] d Hx F IH]; simpl.
  - constructor; [exact H | constructor].
  - destruct (String.eqb k k'); constructor; auto.
Qed.

Lemma set_keys_In {V} (d : Py.dict V) (k : string) (v : V) (x : string) :
  In x (Py.keys (Py.set d k v)) -> x = k \/ In x (Py.keys d).
Proof.
  induction d as [|[k' v'] d IH]; simpl.
  - intros [H|[]]. auto.
  - destruct (String.eqb k k'); simpl.
    + intros [H|H]; auto.
    + intros [H|H]; auto. destruct (IH H); auto.
Qed.

Lemma set_NoDup {V} (d : Py.dict V) (k : string) (v : V) :
  NoDup (Py.keys d) -> NoDup (Py.keys (Py.set d k v)).
Proof.
  induction d as [|[k' v'] d IH]; simpl; intros N.
  - constructor; [intros [] | constructor].
  - inversion N as [|? ? Nk Nd]; subst.
    destruct (String.eqb_spec k k') as [->|Ne]; simpl.
    + constructor; assumption.
    + constructor; [|auto]. intros I.
      destruct (set_keys_In _ _ _ _ I); [congruence | contradiction].
Qed.

Lemma for_each_length {A B} (f : A -> result B) (l : list A) (bs : list B) :
  Py.for_each f l = Ok bs -> List.length bs = List.length l.
Proof.
  intros H. apply for_each_Forall2 in H.
  symmetry. eapply Forall2_length. exact H.
Qed.

(** The extractor gives one value per label. *)
Lemma getfields_length (line1 line2 : string) (names : list string) (nums : list Z) :
  getfields line1 line2 = Ok (names, nums) ->
  List.length names = List.length nums.
Proof.
  unfold getfields.
  destruct (Py.for_each _ _) as [vs|] eqn:E; [|discriminate].
  cbn [bind]. intros [= <- <-]. symmetry. eapply for_each_length. exact E.
Qed.

Lemma errors_rule_keeps (name line : string) (self self' : ScanStats) :
  errors_rule line self = Ok self' ->
  windows_record name self -> windows_record name self'.
Proof.
  unfold errors_rule. destruct (Py.contains line " errors, ").
  - destruct (Py.next _ _) as [errfield|]; [|discriminate]. cbn [bind].
    destruct (Py.split_ws errfield) as [|a [|b [|c l]]]; try discriminate.
    destruct (Py.int a) as [n|]; [|discriminate]. cbn [bind].
    intros [= <-] (Hn & Hh & Nh & Hs & He).
    split; [exact Hn|]. split; [exact Hh|]. split; [exact Nh|].
    split; [exact Hs|]. cbn [nError set_nError]. lia.
  - intros [= <-]. auto.
Qed.

Lemma fromWindows_body_keeps (name : string) (lines : list string) (lineNum : nat)
    (line : string) (self self' : ScanStats) :
  fromWindows_body lines lineNum line self = Ok self' ->
  windows_record name self -> windows_record name self'.
Proof.
  unfold fromWindows_body. destruct (Py.startswith line "xcp scan").
  - destruct (Py.next _ _) as [src|]; [|discriminate]. cbn [bind].
    intros [= <-]. auto.
  - destruct (errors_rule line self) as [self1|] eqn:E; [|discriminate].
    cbn [bind]. intros H W. apply (errors_rule_keeps name _ _ _ E) in W.
    destruct W as (Hn & Hh & Nh & [Hs Ns] & He).
    destruct (Py.mem (section_title line) Histograms) eqn:M.
    + destruct (Py.getitem lines _) as [l1|]; [|discriminate]. cbn [bind] in H.
      destruct (Py.getitem lines _) as [l2|]; [|discriminate]. cbn [bind] in H.
      destruct (getfields l1 l2) as [[names nums]|] eqn:G; [|discriminate].
      cbn [bind] in H. injection H as <-.
      split; [exact Hn|]. split; [|split; [|split; [split|]]]; try assumption.
      * apply set_Forall; [exact Hh|]. cbn [fst snd title labels values].
        split; [split; [|split]|].
        -- apply mem_In, M.
        -- reflexivity.
        -- clear. induction nums; constructor; [eexists; reflexivity | auto].
        -- rewrite length_map. apply (getfields_length _ _ _ _ G).
      * apply set_NoDup, Nh.
    + destruct (Py.partition line ":") as [[t m] s].
      destruct (Py.mem t (Py.keys SingleValueOutputs)) eqn:K.
      * destruct (convert s) as [[o n]|]; [|discriminate]. cbn [bind] in H.
        injection H as <-.
        split; [exact Hn|]. split; [exact Hh|]. split; [exact Nh|].
        split; [|exact He]. split.
        -- apply set_Forall; [exact Hs|]. apply mem_In, K.
        -- apply set_NoDup, Ns.
      * injection H as <-. repeat split; assumption.
Qed.

(** X4.  Every record that [fromWindows] returns carries the file name; each
    of its histograms sits under its own title, a title of
    [Histograms], with integer values, one per label; each scalar sits
    under a key of [SingleValueOutputs]; no key occurs twice; the error
    count is not negative. *)
Theorem fromWindows_record (name : string) (f : list string) (st : ScanStats) :
  fromWindows name f = Ok st -> windows_record name st.
Proof.
  unfold fromWindows.
  assert (G : forall todo lineNum self,
             windows_record name self ->
             fromWindows_loop f lineNum todo self = Ok st ->
             windows_record name st).
  { induction todo as [|line todo IH]; intros lineNum self W; cbn [fromWindows_loop].
    - intros [= <-]. exact W.
    - destruct (fromWindows_body f lineNum line self) as [self'|] eqn:B;
        [|discriminate].
      cbn [bind]. apply IH. exact (fromWindows_body_keeps name _ _ _ _ _ B W). }
  apply G. repeat split; try constructor. reflexivity.
Qed.

Lemma fromWindows_record_witness :
  exists st, fromWindows "scan.txt" space_used_lines = Ok st /\
             windows_record "scan.txt" st /\
             Py.get (single st) "Total space used" = Some 738197504.
Proof.
  eexists. split; [vm_compute; reflexivity|]. split; [|vm_compute; reflexivity].
  apply (fromWindows_record "scan.txt" space_used_lines).
  vm_compute. reflexivity.
Defined.

Lemma fromCSV_body_keeps (name : string) (lines : list string) (lineNum : nat)
    (line : string) (self self' : ScanStats) :
  fromCSV_body lines lineNum line self = Ok self' ->
  csv_record name self -> csv_record name self'.
Proof.
  unfold fromCSV_body.
  assert (K : forall s o, csv_record name s -> csv_record name (set_skip1 s o))
    by (intros s o H; exact H).
  assert (R : forall s, csv_record name s ->
            (if Py.startswith line "scan "
             then src <- Py.getitem (Py.split_ws line) 1 ;; Ok (set_source s src)
             else if (Py.startswith line ("summary," ++ dquote)
                      && Py.contains line "errors,")%bool
                  then
                    let fields := Py.split_ws
                      (Py.slice line (Py.len ("summary," ++ dquote)) (-1)) in
                    k <- Py.list_index fields "errors," ;;
                    w <- Py.getitem fields (k - 1) ;;
                    n <- Py.int w ;; Ok (set_nError s n)
                  else fromCSV_fields lines lineNum line s) = Ok self' ->
            csv_record name self').
  { intros s (Hn & Hh & Nh & [Hs Ns]).
    destruct (Py.startswith line "scan ").
    { destruct (Py.getitem _ 1); [|discriminate]. intros [= <-].
      repeat split; assumption. }
    destruct (_ && _)%bool.
    { cbv zeta. destruct (Py.list_index _ _) as [k|]; [|discriminate]. cbn [bind].
      destruct (Py.getitem _ _) as [w|]; [|discriminate]. cbn [bind].
      destruct (Py.int w) as [n|]; [|discriminate]. intros [= <-].
      repeat split; assumption. }
    unfold fromCSV_fields. cbv zeta.
    destruct (Py.split line ",") as [|t fs]; [intros [= <-]; repeat split; assumption|].
    destruct (Py.mem t Histograms) eqn:M.
    - destruct (Py.getitem lines _) as [next|]; [|discriminate]. cbn [bind].
      intros [= <-]. split; [exact Hn|]. split; [|split; [|split]]; try assumption.
      + apply set_Forall; [exact Hh|]. split; [apply mem_In, M | split; [reflexivity|]].
        cbn [snd values]. generalize (tl (Py.split next ",")).
        induction l; constructor; [eexists; reflexivity | auto].
      + apply set_NoDup, Nh.
    - destruct (Py.mem t (Py.keys SingleValueOutputs)) eqn:Ky; cbn [negb].
      + destruct (Py.getitem _ 1) as [f1|]; [|discriminate]. cbn [bind].
        destruct (Py.int f1) as [n|]; [|discriminate]. intros [= <-].
        split; [exact Hn|]. split; [exact Hh|]. split; [exact Nh|]. split.
        * apply set_Forall; [exact Hs|]. apply mem_In, Ky.
        * apply set_NoDup, Ns.
      + intros [= <-]. repeat split; assumption. }
  intros H W. destruct (skip1 self) as [[|c t]|].
  - apply (R (set_skip1 self None)); [apply K, W | exact H].
  - destruct (Py.startswith line (String c t)); [|discriminate].
    injection H as <-. apply K, W.
  - apply (R (set_skip1 self None)); [apply K, W | exact H].
Qed.

(** X5.  Every record that [fromCSV] returns carries the file name; each of
    its histograms sits under its own title, a title of [Histograms],
    with string values; each scalar sits under a key of
    [SingleValueOutputs]; no key occurs twice. *)
Theorem fromCSV_record (name : string) (f : list string) (st : ScanStats) :
  fromCSV name f = Ok st -> csv_record name st.
Proof.
  unfold fromCSV.
  assert (G : forall todo lineNum self,
             csv_record name self ->
             fromCSV_loop f lineNum todo self = Ok st -> csv_record name st).
  { induction todo as [|line todo IH]; intros lineNum self W; cbn [fromCSV_loop].
    - intros [= <-]. exact W.
    - destruct (fromCSV_body f lineNum line self) as [self'|] eqn:B; [|discriminate].
      cbn [bind]. apply IH. exact (fromCSV_body_keeps name _ _ _ _ _ B W). }
  apply G. repeat split; constructor.
Qed.

Lemma fromCSV_record_witness :
  exists st, fromCSV "scan.csv" depth_then_scalar = Ok st /\ csv_record "scan.csv" st.
Proof.
  eexists. split; [vm_compute; reflexivity|].
  apply (fromCSV_record "scan.csv" depth_then_scalar). vm_compute. reflexivity.
Defined.

(* ================================================================= *)
(** ** Unrecognised lines and missing rows *)

Lemma prefix_app (sub s : string) :
  String.prefix sub s = true -> exists b, s = sub ++ b.
Proof.
  revert s. induction sub as [|c sub IH]; intros s.
  - intros _. exists s. reflexivity.
  - destruct s as [|d s]; [discriminate|].
    change (String.prefix (String c sub) (String d s))
      with (if Ascii.ascii_dec c d then String.prefix sub s else false).
    destruct (Ascii.ascii_dec c d) as [->|]; [|discriminate].
    intros H. destruct (IH s H) as [b ->]. exists b. reflexivity.
Qed.

Lemma contains_unfold (s sub : string) :
  Py.contains s sub =
  if String.prefix sub s then true
  else match s with
       | EmptyString => false
       | String _ s' => Py.contains s' sub
       end.
Proof. destruct s; reflexivity. Qed.

Lemma contains_forall (p : ascii -> bool) (s sub : string) :
  Py.contains s sub = true -> string_forall p s = true ->
  string_forall p sub = true.
Proof.
  induction s as [|c s IH]; rewrite contains_unfold;
    destruct (String.prefix sub _) eqn:P.
  - intros _ H. apply prefix_app in P. destruct P as [b E].
    rewrite E, string_forall_app in H. apply andb_true_iff in H. apply H.
  - discriminate.
  - intros _ H. apply prefix_app in P. destruct P as [b E].
    rewrite E, string_forall_app in H. apply andb_true_iff in H. apply H.
  - intros C H. simpl in H. apply andb_true_iff in H. apply IH; [exact C | apply H].
Qed.

Lemma lstrip_with_parts (p : ascii -> bool) (s : string) :
  exists w, s = w ++ Py.lstrip_with p s /\ string_forall p w = true.
Proof.
  induction s as [|c s (w & IH & F)]; simpl.
  - exists EmptyString. auto.
  - destruct (p c) eqn:E.
    + exists (String c w). simpl. rewrite E, F.
      split; [f_equal; exact IH | reflexivity].
    + exists EmptyString. auto.
Qed.

Lemma rstrip_with_parts (p : ascii -> bool) (s : string) :
  exists w, s = Py.rstrip_with p s ++ w /\ string_forall p w = true.
Proof.
  induction s as [|c s (w & IH & F)]; simpl.
  - exists EmptyString. auto.
  - destruct (Py.rstrip_with p s) as [|d r] eqn:R.
    + simpl in IH. destruct (p c) eqn:E.
      * exists (String c w). simpl. rewrite E, F.
        split; [f_equal; exact IH | reflexivity].
      * exists w. simpl. split; [f_equal; exact IH | exact F].
    + exists w. split; [simpl; f_equal; exact IH | exact F].
Qed.

(** A title line is its title between runs of blanks and equal signs. *)
Lemma section_title_parts (line : string) :
  exists a b,
    line = a ++ section_title line ++ b /\
    string_forall (fun c => Py.isspace c || Py.in_chars "== " c)%bool a = true /\
    string_forall (fun c => Py.isspace c || Py.in_chars "== " c)%bool b = true.
Proof.
  unfold section_title, Py.strip, Py.lstrip, Py.rstrip.
  destruct (rstrip_with_parts Py.isspace line) as (w2 & E2 & F2).
  destruct (lstrip_with_parts Py.isspace (Py.rstrip_with Py.isspace line))
    as (w1 & E1 & F1).
  set (x := Py.lstrip_with Py.isspace (Py.rstrip_with Py.isspace line)) in *.
  destruct (lstrip_with_parts (Py.in_chars "== ") x) as (e1 & E3 & F3).
  set (y := Py.lstrip_with (Py.in_chars "== ") x) in *.
  destruct (rstrip_with_parts (Py.in_chars " ==") y) as (e2 & E4 & F4).
  exists (w1 ++ e1), (e2 ++ w2). split; [|split].
  - rewrite E2 at 1. rewrite E1 at 1. rewrite E3 at 1. rewrite E4 at 1.
    rewrite !append_assoc. reflexivity.
  - rewrite string_forall_app. apply andb_true_iff. split.
    + eapply string_forall_impl; [|exact F1]. intros c ->. reflexivity.
    + eapply string_forall_impl; [|exact F3]. intros c ->. apply orb_true_r.
  - rewrite string_forall_app. apply andb_true_iff. split.
    + eapply string_forall_impl; [|exact F4]. intros c H.
      apply orb_true_iff. right. revert H. simpl.
      destruct (Ascii.eqb c " "), (Ascii.eqb c "="); auto.
    + eapply string_forall_impl; [|exact F2]. intros c ->. reflexivity.
Qed.

(** A title line holds no error count: the error rule passes over it. *)
Lemma title_line_no_errors (line : string) (self : ScanStats) :
  Py.mem (section_title line) Histograms = true ->
  errors_rule line self = Ok self.
Proof.
  intros M. unfold errors_rule.
  destruct (Py.contains line " errors, ") eqn:C; [|reflexivity]. exfalso.
  destruct (section_title_parts line) as (a & b & E & Fa & Fb).
  assert (F : string_forall (fun c => negb (Ascii.eqb c ",")) line = true).
  { rewrite E, !string_forall_app. apply mem_In in M.
    assert (P : forall c, (Py.isspace c || Py.in_chars "== " c)%bool = true ->
                          negb (Ascii.eqb c ",") = true).
    { intros c H. destruct (Ascii.eqb_spec c ",") as [->|]; [discriminate | reflexivity]. }
    rewrite (string_forall_impl _ _ a P Fa), (string_forall_impl _ _ b P Fb).
    unfold Histograms in M. cbn [In] in M.
    repeat (destruct M as [<-|M]; [reflexivity|]). contradiction. }
  pose proof (contains_forall _ _ _ C F). discriminate.
Qed.

Lemma getitem_nonneg {A} (l : list A) (k : Z) :
  0 <= k ->
  Py.getitem l k = of_option IndexError (nth_error l (Z.to_nat k)).
Proof.
  intros K. unfold Py.getitem. cbv zeta.
  destruct (Z.ltb_spec k 0) as [?|_]; [lia|]. cbv iota.
  destruct (Z.ltb_spec k 0) as [?|_]; [lia|]. cbn [orb].
  destruct (Z.leb_spec (Z.of_nat (List.length l)) k) as [H|H]; [|reflexivity].
  replace (nth_error l (Z.to_nat k)) with (@None A); [reflexivity|].
  symmetry. apply nth_error_None. lia.
Qed.

Lemma getitem_app_l {A} (l extra : list A) (k : Z) (x : A) :
  0 <= k -> Py.getitem l k = Ok x -> Py.getitem (l ++ extra) k = Ok x.
Proof.
  intros K. rewrite !getitem_nonneg by exact K.
  destruct (nth_error l (Z.to_nat k)) eqn:E; [|discriminate].
  intros [= <-]. rewrite nth_error_app1; [rewrite E; reflexivity|].
  apply nth_error_Some. congruence.
Qed.

Lemma getitem_app_r {A} (before l : list A) (k : Z) :
  0 <= k ->
  Py.getitem (before ++ l) (Z.of_nat (List.length before) + k) = Py.getitem l k.
Proof.
  intros K. rewrite !getitem_nonneg by lia.
  rewrite nth_error_app2 by lia. do 2 f_equal. lia.
Qed.

Lemma getitem_beyond {A} (l : list A) (k : Z) :
  Z.of_nat (List.length l) <= k -> Py.getitem l k = Raise IndexError.
Proof.
  intros K. rewrite getitem_nonneg by lia.
  replace (nth_error l (Z.to_nat k)) with (@None A); [reflexivity|].
  symmetry. apply nth_error_None. lia.
Qed.

Lemma fromWindows_loop_app (lines a b : list string) :
  forall lineNum self,
    fromWindows_loop lines lineNum (a ++ b) self =
    (self' <- fromWindows_loop lines lineNum a self ;;
     fromWindows_loop lines (lineNum + List.length a) b self').
Proof.
  induction a as [|line a IH]; intros lineNum self.
  - cbn [app fromWindows_loop bind List.length]. rewrite Nat.add_0_r. reflexivity.
  - cbn [app fromWindows_loop List.length].
    destruct (fromWindows_body lines lineNum line self); [|reflexivity].
    cbn [bind]. rewrite IH. rewrite Nat.add_succ_r. reflexivity.
Qed.

Lemma fromWindows_body_shift (before lines : list string) (lineNum : nat)
    (line : string) (self : ScanStats) :
  fromWindows_body (before ++ lines) (List.length before + lineNum) line self
  = fromWindows_body lines lineNum line self.
Proof.
  unfold fromWindows_body.
  replace (Z.of_nat (List.length before + lineNum) + 1)
    with (Z.of_nat (List.length before) + (Z.of_nat lineNum + 1)) by lia.
  replace (Z.of_nat (List.length before + lineNum) + 2)
    with (Z.of_nat (List.length before) + (Z.of_nat lineNum + 2)) by lia.
  rewrite !getitem_app_r by lia. reflexivity.
Qed.

Lemma fromWindows_body_more (lines extra : list string) (lineNum : nat)
    (line : string) (self self' : ScanStats) :
  fromWindows_body lines lineNum line self = Ok self' ->
  fromWindows_body (lines ++ extra) lineNum line self = Ok self'.
Proof.
  unfold fromWindows_body. destruct (Py.startswith line "xcp scan"); [auto|].
  destruct (errors_rule line self) as [self1|]; [|discriminate]. cbn [bind].
  destruct (Py.mem (section_title line) Histograms); [|auto].
  destruct (Py.getitem lines (Z.of_nat lineNum + 1)) as [l1|] eqn:G1; [|discriminate].
  cbn [bind].
  destruct (Py.getitem lines (Z.of_nat lineNum + 2)) as [l2|] eqn:G2; [|discriminate].
  rewrite (getitem_app_l lines extra (Z.of_nat lineNum + 1) l1)
    by first [lia | exact G1].
  rewrite (getitem_app_l lines extra (Z.of_nat lineNum + 2) l2)
    by first [lia | exact G2].
  auto.
Qed.

Lemma fromWindows_loop_shift (before lines : list string) (todo : list string) :
  forall lineNum self,
    fromWindows_loop (before ++ lines) (List.length before + lineNum) todo self
    = fromWindows_loop lines lineNum todo self.
Proof.
  induction todo as [|line todo IH]; intros lineNum self; [reflexivity|].
  cbn [fromWindows_loop]. rewrite fromWindows_body_shift.
  destruct (fromWindows_body lines lineNum line self); [|reflexivity].
  cbn [bind]. rewrite <- Nat.add_succ_r. apply IH.
Qed.

Lemma fromWindows_loop_more (lines extra : list string) (todo : list string) :
  forall lineNum self st,
    fromWindows_loop lines lineNum todo self = Ok st ->
    fromWindows_loop (lines ++ extra) lineNum todo self = Ok st.
Proof.
  induction todo as [|line todo IH]; intros lineNum self st; [auto|].
  cbn [fromWindows_loop].
  destruct (fromWindows_body lines lineNum line self) as [self'|] eqn:B;
    [|discriminate].
  rewrite (fromWindows_body_more _ extra _ _ _ _ B). cbn [bind]. apply IH.
Qed.

Lemma fromWindows_loop_inert (lines todo : list string) :
  Forall (fun l => matches_no_rule l = true) todo ->
  forall lineNum self, fromWindows_loop lines lineNum todo self = Ok self.
Proof.
  induction 1 as [|line todo H F IH]; intros lineNum self; [reflexivity|].
  cbn [fromWindows_loop]. rewrite (matches_no_rule_inert _ _ _ _ H).
  cbn [bind]. apply IH.
Qed.

(** X6.  Text that matches no rule, before or after a report that parses,
    changes nothing: the record is that of the report alone. *)
Theorem fromWindows_surrounding_text (name : string)
    (before f after : list string) (st : ScanStats) :
  Forall (fun l => matches_no_rule l = true) before ->
  Forall (fun l => matches_no_rule l = true) after ->
  fromWindows name f = Ok st ->
  fromWindows name (before ++ f ++ after) = Ok st.
Proof.
  intros Hb Ha H. unfold fromWindows in *.
  rewrite fromWindows_loop_app, (fromWindows_loop_inert _ _ Hb). cbn [bind].
  rewrite <- (Nat.add_0_r (0 + List.length before)).
  cbn [Nat.add]. rewrite fromWindows_loop_shift.
  rewrite fromWindows_loop_app.
  rewrite (fromWindows_loop_more f after f 0 (init name) st H). cbn [bind].
  apply fromWindows_loop_inert, Ha.
Qed.

Lemma fromWindows_surrounding_text_witness :
  fromWindows "scan.txt"
    (["XCP 1.6; (c) 2020 NetApp" ++ nl; nl] ++ space_used_lines ++ [nl; "done" ++ nl])
  = Ok (mkScanStats "scan.txt"
          [("Space used",
            mkHisto "Space used" ["empty"; "<8KiB"; "8-64KiB"]
              [VInt 0; VInt 25375539; VInt 713031680])]
          [("Total space used", 738197504)] None 0 None).
Proof.
  apply (fromWindows_surrounding_text "scan.txt").
  - repeat (constructor; [vm_compute; reflexivity|]). constructor.
  - repeat (constructor; [vm_compute; reflexivity|]). constructor.
  - vm_compute. reflexivity.
Defined.

(** X7.  A title line with fewer than two lines after it ends the parse
    with [IndexError], once the lines before it have been parsed. *)
Theorem fromWindows_rows_missing (name : string) (pre : list string)
    (line : string) (tail : list string) (st : ScanStats) :
  is_histogram_line line = true ->
  (List.length tail < 2)%nat ->
  fromWindows_loop (pre ++ line :: tail) 0 pre (init name) = Ok st ->
  fromWindows name (pre ++ line :: tail) = Raise IndexError.
Proof.
  intros T L P. unfold fromWindows. rewrite fromWindows_loop_app, P. cbn [bind].
  cbn [fromWindows_loop Nat.add]. unfold fromWindows_body, is_histogram_line in *.
  apply andb_true_iff in T. destruct T as [T1 T2]. apply negb_true_iff in T1.
  rewrite T1, (title_line_no_errors _ _ T2). cbn [bind]. rewrite T2.
  destruct tail as [|l1 [|l2 tail]]; [| |simpl in L; lia].
  - rewrite getitem_beyond; [reflexivity|]. rewrite length_app. simpl. lia.
  - replace (Z.of_nat (List.length pre) + 1)
      with (Z.of_nat (List.length pre) + 1) by lia.
    rewrite (getitem_app_r pre [line; l1] 1) by lia. cbn [bind].
    replace (Py.getitem [line; l1] 1) with (Ok l1) by reflexivity. cbn [bind].
    rewrite getitem_beyond; [reflexivity|]. rewrite length_app. simpl. lia.
Qed.

Lemma fromWindows_rows_missing_witness :
  fromWindows "scan.txt"
    (["Total space used: 5" ++ nl] ++ ("== Depth ==" ++ nl) :: ["   a    b" ++ nl])
  = Raise IndexError.
Proof.
  apply (fromWindows_rows_missing "scan.txt" _ _ _
           (set_single (init "scan.txt") "Total space used" 5)).
  - vm_compute. reflexivity.
  - simpl. lia.
  - vm_compute. reflexivity.
Defined.

Lemma fromCSV_loop_app (lines a b : list string) :
  forall lineNum self,
    fromCSV_loop lines lineNum (a ++ b) self =
    (self' <- fromCSV_loop lines lineNum a self ;;
     fromCSV_loop lines (lineNum + List.length a) b self').
Proof.
  induction a as [|line a IH]; intros lineNum self.
  - cbn [app fromCSV_loop bind List.length]. rewrite Nat.add_0_r. reflexivity.
  - cbn [app fromCSV_loop List.length].
    destruct (fromCSV_body lines lineNum line self); [|reflexivity].
    cbn [bind]. rewrite IH. rewrite Nat.add_succ_r. reflexivity.
Qed.

(** X8.  A label row of a histogram that is the last line of a CSV report
    ends the parse with [IndexError]: its values are read from the line
    after it. *)
Theorem fromCSV_values_missing (name : string) (pre : list string)
    (line title : string) (st : ScanStats) :
  hd_error (Py.split line ",") = Some title ->
  Py.mem title Histograms = true ->
  fromCSV_loop (pre ++ [line]) 0 pre (init name) = Ok st ->
  truthy (skip1 st) = false ->
  fromCSV name (pre ++ [line]) = Raise IndexError.
Proof.
  intros F M P T. unfold fromCSV. rewrite fromCSV_loop_app, P. cbn [bind].
  cbn [fromCSV_loop Nat.add]. unfold fromCSV_body, fromCSV_fields.
  destruct (histogram_line_kind line title F M) as (K1 & K2 & _).
  assert (B : forall (X : Type) (a : string -> X) (b : X),
             match skip1 st with
             | Some (String _ _ as t) => a t
             | _ => b
             end = b).
  { intros X a b. destruct (skip1 st) as [[|]|]; try reflexivity. discriminate. }
  rewrite B, K1, K2. cbn [andb].
  destruct (Py.split line ",") as [|t0 fs]; [discriminate|].
  injection F as ->. rewrite M.
  rewrite getitem_beyond; [reflexivity|]. rewrite length_app. simpl. lia.
Qed.

Lemma fromCSV_values_missing_witness :
  fromCSV "scan.csv" (["Total space used,7" ++ nl] ++ ["Depth,a,b" ++ nl])
  = Raise IndexError.
Proof.
  apply (fromCSV_values_missing "scan.csv" _ _ "Depth"
           (set_single (init "scan.csv") "Total space used" 7));
    vm_compute; reflexivity.
Defined.

(* ================================================================= *)
(** ** When the script writes a table *)





(* ================================================================= *)
(** ** The order of the rows, whatever the records hold *)

Lemma simple_ltb_trans (a b c : value) :
  simple a -> simple b -> simple c ->
  value_ltb a b = false -> value_ltb b c = false -> value_ltb a c = false.
Proof.
  unfold value_ltb.
  intros [->|[x ->]] [->|[y ->]] [->|[z ->]]; simpl; try reflexivity;
    try discriminate.
  destruct (Z.compare_spec x y), (Z.compare_spec y z), (Z.compare_spec x z);
    try reflexivity; try discriminate; lia.
Qed.

Lemma simple_ltb_asym (a b : value) :
  simple a -> simple b -> value_ltb a b = true -> value_ltb b a = false.
Proof.
  unfold value_ltb.
  intros [->|[x ->]] [->|[y ->]]; simpl; try reflexivity; try discriminate.
  destruct (Z.compare_spec x y), (Z.compare_spec y x);
    try reflexivity; try discriminate; lia.
Qed.

Lemma insert_desc_sorted_simple {A} (x : value * A) (l : list (value * A)) :
  simple (fst x) -> Forall (fun y => simple (fst y)) l ->
  StronglySorted (fun a b => value_ltb (fst a) (fst b) = false) l ->
  StronglySorted (fun a b => value_ltb (fst a) (fst b) = false) (insert_desc x l).
Proof.
  intros Hx Hl S. induction S as [|y l S IH F]; simpl.
  - repeat constructor.
  - inversion Hl as [|? ? Hy Hl']; subst.
    destruct (value_ltb (fst x) (fst y)) eqn:L.
    + constructor; [apply IH; assumption|].
      apply (Permutation_Forall (insert_desc_perm x l)).
      constructor; [|exact F]. apply simple_ltb_asym; assumption.
    + constructor; [constructor; assumption|].
      constructor; [exact L|].
      rewrite Forall_forall in *. intros z Iz.
      apply (simple_ltb_trans _ (fst y)); auto.
Qed.

Lemma sort_desc_sorted_simple {A} (l : list (value * A)) :
  Forall (fun y => simple (fst y)) l ->
  StronglySorted (fun a b => value_ltb (fst a) (fst b) = false) (sort_desc l).
Proof.
  induction l as [|x l IH]; simpl; intros H; [constructor|].
  inversion H; subst. apply insert_desc_sorted_simple; auto.
  apply (Permutation_Forall (sort_desc_perm l)). assumption.
Qed.

Lemma getitem_Ok_nth {A} (l : list A) (n : nat) (x : A) (d : A) :
  Py.getitem l (Z.of_nat n) = Ok x -> nth n l d = x.
Proof.
  unfold Py.getitem.
  destruct (Z.ltb_spec (Z.of_nat n) 0); [lia|].
  destruct (_ || _)%bool; [discriminate|].
  rewrite Nat2Z.id. destruct (nth_error l n) eqn:E; [|discriminate].
  intros [= <-]. apply nth_error_nth. exact E.
Qed.

(** What [sort_rows] returns: the rows, keyed by their fourth cell and
    sorted. *)
Lemma sort_rows_keyed (rows sorted : list (list value)) :
  sort_rows rows = Ok sorted ->
  sorted = map snd (sort_desc (map (fun row => (row_key row, row)) rows)).
Proof.
  unfold sort_rows.
  destruct (Py.for_each _ rows) as [keyed|] eqn:E; [|discriminate].
  cbn [bind]. intros [= <-]. do 2 f_equal.
  revert keyed E. induction rows as [|row rows IH]; intros keyed;
    cbn [Py.for_each map].
  - intros [= <-]. reflexivity.
  - destruct (Py.getitem row 3) as [k|] eqn:G; [|discriminate]. cbn [bind].
    destruct (Py.for_each _ rows) as [ks|]; [|discriminate]. cbn [bind].
    intros [= <-]. rewrite (IH ks eq_refl). f_equal. f_equal.
    symmetry. apply (getitem_Ok_nth row 3). exact G.
Qed.

Lemma filter_map_snd (k : value) (l : list (value * list value)) :
  Forall (fun x => fst x = row_key (snd x)) l ->
  filter (key_is k) (map snd l) = map snd (filter (has_key k) l).
Proof.
  induction 1 as [|x l Hx F IH]; [reflexivity|].
  cbn [map filter]. unfold key_is at 1, has_key at 1. rewrite <- Hx.
  destruct (value_compare (fst x) k); cbn [map]; rewrite IH; reflexivity.
Qed.

Lemma keyed_rows (rows : list (list value)) :
  Forall (fun x : value * list value => fst x = row_key (snd x))
         (map (fun row => (row_key row, row)) rows).
Proof. induction rows; constructor; auto. Qed.

Lemma mkrow_key (d : Py.dict ScanStats) (name : string) (row : list value) :
  mkrow d name = Ok row -> simple (row_key row).
Proof.
  intros H. assert (G : exists stats, Py.get d name = Some stats).
  { unfold mkrow, lookup in H. destruct (Py.get d name); [eauto | discriminate]. }
  destruct G as [stats G].
  destruct (mkrow_spec d name stats G) as (row' & E & _ & _ & K).
  rewrite H in E. injection E as <-.
  unfold row_key. rewrite (nth_error_nth _ _ _ K).
  destruct (Py.get (single stats) "Total space used"); [right; eexists|left];
    reflexivity.
Qed.

(** X10.  The data rows of the table are the rows built for the files, in the
    order of Python 2 on the fourth cell, highest first: numbers
    descending, then the rows of the files without the scalar, whose key
    is [None].  Rows of equal key keep the order of the file names. *)
Theorem aggregate_row_order (fileNames : list string) (d : Py.dict ScanStats)
    (t : Table) :
  aggregate fileNames d = Ok t ->
  exists t0,
    build fileNames d = Ok t0 /\
    Permutation (rows t0) (rows t) /\
    StronglySorted key_not_below (rows t) /\
    forall k, filter (key_is k) (rows t) = filter (key_is k) (rows t0).
Proof.
  unfold aggregate. destruct (build fileNames d) as [t0|] eqn:B; [|discriminate].
  cbn [bind]. destruct (sort_rows (rows t0)) as [sorted|] eqn:S; [|discriminate].
  cbn [bind]. intros [= <-]. exists t0. split; [reflexivity|]. cbn [rows].
  apply sort_rows_keyed in S. set (keyed := map _ (rows t0)) in S.
  pose proof (keyed_rows (rows t0)) as K. fold keyed in K.
  assert (R : map snd keyed = rows t0).
  { subst keyed. rewrite map_map. apply map_id. }
  assert (Si : Forall (fun y : value * list value => simple (fst y)) keyed).
  { subst keyed. unfold build in B.
    destruct (mkheaders fileNames d) as [[h0 h]|]; [|discriminate]. cbn [bind] in B.
    destruct (Py.for_each (mkrow d) fileNames) as [rs|] eqn:E; [|discriminate].
    injection B as <-. cbn [rows]. apply for_each_Forall2 in E.
    clear -E. induction E as [|name row l l' H E IH]; constructor; [|exact IH].
    exact (mkrow_key d name row H). }
  split; [|split].
  - rewrite S, <- R at 1. apply Permutation_map, sort_desc_perm.
  - rewrite S. pose proof (sort_desc_sorted_simple keyed Si) as SS.
    pose proof (Permutation_Forall (sort_desc_perm keyed) K) as K'.
    clear -SS K'. induction SS as [|x l SS IH F]; simpl; [constructor|].
    inversion K' as [|? ? Kx Kl]; subst. constructor; [auto|].
    clear -F Kx Kl. induction F as [|y l Hy F IH]; simpl; [constructor|].
    inversion Kl as [|? ? Ky Kl']; subst. constructor; [|auto].
    unfold key_not_below. rewrite <- Kx, <- Ky. exact Hy.
  - intros k. rewrite S.
    rewrite filter_map_snd
      by exact (Permutation_Forall (sort_desc_perm keyed) K).
    rewrite sort_desc_stable, <- filter_map_snd by exact K.
    rewrite R. reflexivity.
Qed.

Lemma aggregate_row_order_witness :
  exists t,
    aggregate ["a.csv"; "b.csv"] records_alike = Ok t /\
    StronglySorted key_not_below (rows t) /\
    map row_key (rows t) = [VInt 300; VInt 100].
Proof.
  eexists. split; [vm_compute; reflexivity|]. split; [|vm_compute; reflexivity].
  match goal with
  | |- StronglySorted _ (rows ?t) =>
      assert (A : aggregate ["a.csv"; "b.csv"] records_alike = Ok t)
        by (vm_compute; reflexivity);
      destruct (aggregate_row_order _ _ _ A) as (t0 & _ & _ & S & _);
      exact S
  end.
Defined.

(* ================================================================= *)
(** ** The two header rows *)

Lemma header_loop_prefix (fileNames : list string) (d : Py.dict ScanStats)
    (titles : list string) :
  forall h0 h h0' h',
    header_loop titles fileNames d h0 h = Ok (h0', h') ->
    exists x y, h0' = (h0 ++ x)%list /\ h' = (h ++ y)%list.
Proof.
  induction titles as [|t titles IH]; intros h0 h h0' h'; cbn [header_loop].
  - intros [= <- <-]. exists [], []. rewrite !app_nil_r. auto.
  - destruct (String.eqb t "Top File Extensions"); [apply IH|].
    destruct (Py.getitem fileNames 0); [|discriminate]. cbn [bind].
    destruct (lookup d a); [|discriminate]. cbn [bind].
    destruct (Py.get (hists a0) t); [|apply IH].
    intros H. apply IH in H. destruct H as (x & y & -> & ->).
    eexists. eexists. rewrite <- !app_assoc. split; reflexivity.
Qed.

Lemma header_loop_first (t : string) (titles fileNames : list string)
    (d : Py.dict ScanStats) (h0 h : list string) (r : list string * list string) :
  String.eqb t "Top File Extensions" = false ->
  header_loop (t :: titles) fileNames d h0 h = Ok r ->
  exists name0 stats0,
    hd_error fileNames = Some name0 /\ Py.get d name0 = Some stats0.
Proof.
  intros T. cbn [header_loop]. rewrite T.
  destruct fileNames as [|name0 names]; [discriminate|].
  replace (Py.getitem (name0 :: names) 0) with (Ok name0) by reflexivity.
  cbn [bind]. unfold lookup.
  destruct (Py.get d name0) as [stats0|] eqn:G; [|discriminate].
  intros _. exists name0, stats0. split; [reflexivity | exact G].
Qed.

Lemma aggregate_Ok_inv (fileNames : list string) (d : Py.dict ScanStats) (t : Table) :
  aggregate fileNames d = Ok t ->
  exists name0 stats0,
    hd_error fileNames = Some name0 /\ Py.get d name0 = Some stats0 /\
    forall name, In name fileNames -> exists stats, Py.get d name = Some stats.
Proof.
  unfold aggregate, build, mkheaders.
  destruct (header_loop Histograms fileNames d _ _) as [[h0 h]|] eqn:H;
    [|discriminate].
  cbn [bind].
  destruct (Py.for_each (mkrow d) fileNames) as [rs|] eqn:E; [|discriminate].
  intros _. unfold Histograms in H.
  apply header_loop_first in H; [|reflexivity].
  destruct H as (name0 & stats0 & Hn & G). exists name0, stats0.
  split; [exact Hn|]. split; [exact G|].
  apply for_each_Forall2 in E. intros name I.
  assert (R : exists row, mkrow d name = Ok row).
  { clear -E I. induction E as [|a b l l' Hab E IH]; [contradiction|].
    destruct I as [<-|I]; eauto. }
  destruct R as [row R]. unfold mkrow, lookup in R.
  destruct (Py.get d name); [eauto | discriminate].
Qed.

Lemma hcells_le (stats : ScanStats) (titles : list string) :
  (hcells (fun x => List.length (labels x)) stats titles
   <= hcells (fun x => Nat.max 1 (List.length (labels x))) stats titles)%nat /\
  (hcells (fun x => List.length (labels x)) stats titles
   = hcells (fun x => Nat.max 1 (List.length (labels x))) stats titles <->
   forall title h, In title titles -> shown title = true ->
                   Py.get (hists stats) title = Some h -> labels h <> []).
Proof.
  induction titles as [|t titles [IH1 IH2]].
  - split; [reflexivity|]. split; [intros _ ? ? []|reflexivity].
  - rewrite !hcells_cons.
    set (a := hcells (fun x => List.length (labels x)) stats titles) in *.
    set (b := hcells (fun x => Nat.max 1 (List.length (labels x))) stats titles) in *.
    assert (Tail : a = b ->
              forall title h, In title titles -> shown title = true ->
                Py.get (hists stats) title = Some h -> labels h <> [])
      by (apply IH2).
    assert (Back : (forall title h, In title (t :: titles) -> shown title = true ->
                      Py.get (hists stats) title = Some h -> labels h <> []) ->
                   a = b).
    { intros H. apply IH2. intros title h I. apply H. right. exact I. }
    destruct (shown t) eqn:Sh; [destruct (Py.get (hists stats) t) as [h|] eqn:G|].
    + split; [lia|]. split.
      * intros E title h' [<-|I] S' G'.
        -- rewrite G in G'. injection G' as <-. intros L. rewrite L in E.
           cbn [List.length] in E. lia.
        -- refine (Tail _ title h' _ _ _); [lia | assumption..].
      * intros H. pose proof (Back H) as Eab.
        assert (N : labels h <> [])
          by (apply (H t h); [left; reflexivity | exact Sh | exact G]).
        destruct (labels h); [contradiction|]. cbn [List.length]. lia.
    + split; [lia|]. split.
      * intros E title h' [<-|I] S' G'; [congruence|].
        refine (Tail _ title h' _ _ _); [lia | assumption..].
      * intros H. rewrite (Back H). reflexivity.
    + split; [lia|]. split.
      * intros E title h' [<-|I] S' G'; [congruence|].
        refine (Tail _ title h' _ _ _); [lia | assumption..].
      * intros H. rewrite (Back H). reflexivity.
Qed.

(** X11.  The header rows start with ten fixed cells: ten blanks in the first
    row; in the second a blank, "Errors", a blank and the seven keys of
    [SingleValueOutputs] (its display names are not written).  The
    first row is never the shorter one, and the two are as long as each
    other exactly when no shown histogram of the first file's record
    has an empty list of labels. *)
Theorem aggregate_headers (fileNames : list string) (d : Py.dict ScanStats)
    (t : Table) :
  aggregate fileNames d = Ok t ->
  exists name0 stats0,
    hd_error fileNames = Some name0 /\ Py.get d name0 = Some stats0 /\
    firstn 10 (header0 t) = repeat EmptyString 10 /\
    firstn 10 (header t)
    = ([EmptyString; "Errors"; EmptyString] ++ Py.keys SingleValueOutputs)%list /\
    (List.length (header t) <= List.length (header0 t))%nat /\
    (List.length (header t) = List.length (header0 t) <->
     forall title h, In title Histograms -> shown title = true ->
                     Py.get (hists stats0) title = Some h -> labels h <> []).
Proof.
  intros A. destruct (aggregate_Ok_inv _ _ _ A) as (name0 & stats0 & Hn & G & Hall).
  exists name0, stats0. split; [exact Hn|]. split; [exact G|].
  destruct (aggregate_spec fileNames d name0 stats0 Hn G Hall)
    as (t0 & t' & B & A' & E0 & E1 & _ & _ & L & L0 & _).
  rewrite A in A'. injection A' as <-.
  assert (P : exists x y,
             header0 t = (repeat EmptyString 10 ++ x)%list /\
             header t = (([EmptyString; "Errors"; EmptyString]
                          ++ Py.keys SingleValueOutputs) ++ y)%list).
  { rewrite E0, E1. unfold build, mkheaders in B.
    destruct (header_loop _ _ _ _ _) as [[h0 h]|] eqn:H; [|discriminate].
    cbn [bind] in B. destruct (Py.for_each _ _); [|discriminate].
    injection B as <-. cbn [header0 header].
    apply header_loop_prefix in H. exact H. }
  destruct P as (x & y & P0 & P1).
  split; [rewrite P0; reflexivity|]. split; [rewrite P1; reflexivity|].
  unfold cells in L, L0. destruct (hcells_le stats0 Histograms) as [Le Eq].
  split; [lia|]. rewrite <- Eq. lia.
Qed.

Lemma aggregate_headers_witness :
  exists t,
    aggregate ["a.csv"; "b.csv"] records_alike = Ok t /\
    List.length (header t) = List.length (header0 t).
Proof.
  eexists. split; [vm_compute; reflexivity|].
  match goal with
  | |- List.length (header ?t) = _ =>
      assert (A : aggregate ["a.csv"; "b.csv"] records_alike = Ok t)
        by (vm_compute; reflexivity);
      destruct (aggregate_headers _ _ _ A)
        as (name0 & stats0 & Hn & G & _ & _ & _ & Eq)
  end.
  injection Hn as <-. cbn in G. injection G as <-.
  apply Eq. intros title h I _.
  unfold Histograms in I. cbn [In] in I.
  repeat (destruct I as [<-|I]; [cbn; intros [= <-] || intros [=]; discriminate|]).
  contradiction.
Defined.

(* ================================================================= *)
(** ** The histogram that gets no column *)

Lemma header_loop_same_shown (fileNames : list string) (d1 d2 : Py.dict ScanStats)
    (titles : list string) :
  same_shown_records fileNames d1 d2 ->
  forall h0 h, header_loop titles fileNames d1 h0 h
               = header_loop titles fileNames d2 h0 h.
Proof.
  intros S. induction titles as [|t titles IH]; intros h0 h; [reflexivity|].
  cbn [header_loop].
  destruct (String.eqb t "Top File Extensions") eqn:T; [apply IH|].
  destruct (Py.getitem fileNames 0) as [name0|] eqn:G; [|reflexivity].
  cbn [bind]. apply getitem_In in G. specialize (S name0 G). unfold lookup.
  destruct (Py.get d1 name0) as [a|], (Py.get d2 name0) as [b|];
    try contradiction; [|reflexivity].
  cbn [of_option bind]. destruct S as (_ & _ & Sh & _).
  rewrite Sh by (unfold shown; rewrite T; reflexivity).
  destruct (Py.get (hists b) t); apply IH.
Qed.

Lemma row_loop_same_shown (a b : ScanStats) (titles : list string) :
  (forall k, shown k = true -> Py.get (hists a) k = Py.get (hists b) k) ->
  forall row, row_loop titles a row = row_loop titles b row.
Proof.
  intros Sh. induction titles as [|t titles IH]; intros row; [reflexivity|].
  cbn [row_loop].
  destruct (String.eqb t "Top File Extensions") eqn:T; [apply IH|].
  rewrite Sh by (unfold shown; rewrite T; reflexivity).
  destruct (Py.get (hists b) t); apply IH.
Qed.

(** X12.  The "Top File Extensions" histogram of a record has no effect on the
    table: records that differ in it alone give the same header rows
    and the same data rows. *)
Theorem aggregate_ignores_extensions (fileNames : list string)
    (d1 d2 : Py.dict ScanStats) :
  same_shown_records fileNames d1 d2 ->
  aggregate fileNames d1 = aggregate fileNames d2.
Proof.
  intros S. unfold aggregate, build, mkheaders.
  rewrite (header_loop_same_shown fileNames d1 d2 Histograms S).
  rewrite (for_each_ext (mkrow d1) (mkrow d2) fileNames); [reflexivity|].
  intros name I. specialize (S name I). unfold mkrow, lookup.
  destruct (Py.get d1 name) as [a|], (Py.get d2 name) as [b|];
    try contradiction; [|reflexivity].
  cbn [of_option bind]. destruct S as (Ss & Se & Sh & Sv).
  rewrite Ss, Se, (row_loop_same_shown a b Histograms Sh). do 2 f_equal.
  f_equal. apply map_ext. intros k. rewrite Sv. reflexivity.
Qed.

Lemma aggregate_ignores_extensions_witness :
  aggregate ["a.csv"]
    [("a.csv", set_hists (depth_record "a.csv" [("Total space used", 100)] "1" "2")
                 "Top File Extensions"
                 (mkHisto "Top File Extensions" [".zip"; "other"] [VInt 3; VInt 4]))]
  = aggregate ["a.csv"]
      [("a.csv", depth_record "a.csv" [("Total space used", 100)] "1" "2")].
Proof.
  apply aggregate_ignores_extensions.
  intros name [<-|[]]. cbn [Py.get]. rewrite String.eqb_refl.
  repeat split. intros k Sh. unfold shown in Sh. apply negb_true_iff in Sh.
  cbn [hists set_hists depth_record Py.set Py.get].
  destruct (String.eqb "Top File Extensions" "Depth") eqn:E; [discriminate E|].
  cbn [Py.get]. rewrite Sh. destruct (String.eqb k "Depth"); reflexivity.
Defined.

(* ================================================================= *)
(** ** Reading a written line back *)












